(** * pst_2_json_4_llm: the filter-and-export logic of [pst_2_json_4_llm.py]

    A shallow embedding of the script's functions
    ([extract_email_fields], [email_matches_criteria], [get_folder_emails],
    [open_pst], [main]) together with the parts of the Python library they
    rely on ([str.lower], [in] on strings, [datetime.isoformat],
    [datetime.fromisoformat], [datetime.strptime] with the format
    [%Y-%m-%d]), followed by the properties of the specification.

    Modelling choices, fixed once here:
    - a Python [str] is the [string] of the bytes of its UTF-8 encoding;
      [lower] decodes them and follows [str.lower] of CPython 3.11 on every
      code point (Unicode 14.0), the position-dependent lower case of the
      capital sigma included;
    - a Python exception is a value of [exception]; a call that may raise
      returns a [result];
    - a naive [datetime] is a record of its seven fields carrying the range
      check that the Python constructor performs, so every [datetime] value
      is a valid one;
    - the objects of the archive library are plain data: a [folder] is a tree
      of sub-folders and messages, a message has optional text attributes
      and a delivery time whose read, or whose rendering, may raise (the
      only attribute the script guards with [try]/[except]);
    - the driver runs in a small process monad that records the observable
      events (prints, file-system and archive accesses) in order. *)

From Stdlib Require Import String Ascii ZArith List Lia Bool Eqdep_dec DecimalString.
Import ListNotations.

Local Open Scope string_scope.
Local Open Scope Z_scope.

(* ------------------------------------------------------------------ *)
(** * Exceptions and fallible calls *)

Inductive exception :=
| ValueError (msg : string)
| AttributeError
| IndexError
| IOError (msg : string).

Inductive result (A : Type) :=
| Ok (a : A)
| Raise (e : exception).

Arguments Ok {A} a.
Arguments Raise {A} e.

Definition bind {A B} (r : result A) (k : A -> result B) : result B :=
  match r with
  | Ok a => k a
  | Raise e => Raise e
  end.

Notation "x <- r ;; k" := (bind r (fun x => k))
  (at level 61, r at next level, right associativity).

(** [try: body except: handler], with a bare [except] that catches all. *)
Definition try_except {A} (body : result A) (handler : exception -> A) : A :=
  match body with
  | Ok a => a
  | Raise e => handler e
  end.

(** [for x in l: s = body x s], stopping at the first exception. *)
Fixpoint for_each {A T} (body : A -> T -> result T) (l : list A) (s : T)
  : result T :=
  match l with
  | [] => Ok s
  | x :: l' => s' <- body x s ;; for_each body l' s'
  end.

(** [for i in range(n): s = body i s]. *)
Definition for_range {T} (n : nat) (body : nat -> T -> result T) (s : T)
  : result T :=
  for_each body (seq 0 n) s.

(** Parsers below use the option monad. *)
Definition obind {A B} (o : option A) (k : A -> option B) : option B :=
  match o with
  | Some a => k a
  | None => None
  end.

Notation "x <-? o ;; k" := (obind o (fun x => k))
  (at level 61, o at next level, right associativity).
Notation "' p <-? o ;; k" := (obind o (fun x => let 'p := x in k))
  (at level 61, p pattern, o at next level, right associativity).

(* ------------------------------------------------------------------ *)
(** * Python strings *)

(** Truthiness of a [str]: the empty string is false. *)
Definition str_truthy (s : string) : bool :=
  match s with
  | EmptyString => false
  | String _ _ => true
  end.

(** Truthiness of a value that is [None] or a [str]. *)
Definition truthy (o : option string) : bool :=
  match o with
  | None => false
  | Some s => str_truthy s
  end.

(** [a or b] on values that are [None] or a [str]. *)
Definition py_or (a b : option string) : option string :=
  if truthy a then a else b.

(** [a or ""]. *)
Definition or_empty (a : option string) : string :=
  match a with
  | Some s => if str_truthy s then s else ""
  | None => ""
  end.

Definition is_upper (c : ascii) : bool :=
  let n := Z.of_nat (nat_of_ascii c) in (65 <=? n) && (n <=? 90).

Definition lower_char (c : ascii) : ascii :=
  if is_upper c then ascii_of_nat (nat_of_ascii c + 32) else c.

(** [s.lower()] on an ASCII text: the letters [A]-[Z] are folded, byte by
    byte. *)
Fixpoint ascii_lower (s : string) : string :=
  match s with
  | EmptyString => EmptyString
  | String c s' => String (lower_char c) (ascii_lower s')
  end.

(** [hay.startswith(needle)]. *)
Fixpoint startswith (needle hay : string) : bool :=
  match needle, hay with
  | EmptyString, _ => true
  | String _ _, EmptyString => false
  | String a n', String b h' => Ascii.eqb a b && startswith n' h'
  end.

(** [needle in hay]: [needle] occurs in [hay] as a contiguous substring. *)
Fixpoint contains (needle hay : string) : bool :=
  startswith needle hay ||
  match hay with
  | EmptyString => false
  | String _ h' => contains needle h'
  end.

(* ------------------------------------------------------------------ *)
(** * Text outside ASCII: UTF-8 and the tables of [str.lower]

    A [str] is modelled by its UTF-8 encoding.  The functions below decode
    and encode it, and carry the parts of the Unicode 14.0 database (the one
    of CPython 3.11) that [str.lower] and the [\d] of regular expressions
    consult. *)

Definition code (b : ascii) : Z := Z.of_nat (nat_of_ascii b).

Definition byte (n : Z) : ascii := ascii_of_nat (Z.to_nat n).

Fixpoint is_ascii (s : string) : bool :=
  match s with
  | EmptyString => true
  | String b r => (code b <? 0x80) && is_ascii r
  end.

(** The six payload bits of a continuation byte. *)
Definition continuation (b : ascii) : option Z :=
  let n := code b in
  if (0x80 <=? n) && (n <=? 0xBF) then Some (n - 0x80) else None.

(** A code point that a [str] written as UTF-8 can hold: any but the
    surrogates. *)
Definition scalar (c : Z) : bool :=
  ((0 <=? c) && (c <? 0xD800)) || ((0xE000 <=? c) && (c <=? 0x10FFFF)).

Definition point2 (n0 x1 : Z) : option Z :=
  Some ((n0 - 0xC0) * 64 + x1).

Definition point3 (n0 x1 x2 : Z) : option Z :=
  let c := (n0 - 0xE0) * 4096 + x1 * 64 + x2 in
  if (0x800 <=? c) && scalar c then Some c else None.

Definition point4 (n0 x1 x2 x3 : Z) : option Z :=
  let c := (n0 - 0xF0) * 262144 + x1 * 4096 + x2 * 64 + x3 in
  if (0x10000 <=? c) && (c <=? 0x10FFFF) then Some c else None.

(** The first code point of a text and what follows it; [None] on the empty
    text and on bytes that are not UTF-8. *)
Definition utf8_first (s : string) : option (Z * string) :=
  match s with
  | EmptyString => None
  | String b0 r0 =>
    let n0 := code b0 in
    if n0 <? 0x80 then Some (n0, r0)
    else if n0 <? 0xC2 then None
    else if n0 <? 0xE0 then
      match r0 with
      | String b1 r1 =>
        x1 <-? continuation b1 ;;
        c <-? point2 n0 x1 ;; Some (c, r1)
      | _ => None
      end
    else if n0 <? 0xF0 then
      match r0 with
      | String b1 (String b2 r2) =>
        x1 <-? continuation b1 ;; x2 <-? continuation b2 ;;
        c <-? point3 n0 x1 x2 ;; Some (c, r2)
      | _ => None
      end
    else if n0 <? 0xF5 then
      match r0 with
      | String b1 (String b2 (String b3 r3)) =>
        x1 <-? continuation b1 ;; x2 <-? continuation b2 ;;
        x3 <-? continuation b3 ;;
        c <-? point4 n0 x1 x2 x3 ;; Some (c, r3)
      | _ => None
      end
    else None
  end.

(** The code points of a text; [None] when the bytes are not UTF-8. *)
Fixpoint utf8_decode (s : string) : option (list Z) :=
  match s with
  | EmptyString => Some []
  | String b0 r0 =>
    let n0 := code b0 in
    if n0 <? 0x80 then l <-? utf8_decode r0 ;; Some (n0 :: l)
    else if n0 <? 0xC2 then None
    else if n0 <? 0xE0 then
      match r0 with
      | String b1 r1 =>
        x1 <-? continuation b1 ;;
        c <-? point2 n0 x1 ;; l <-? utf8_decode r1 ;; Some (c :: l)
      | _ => None
      end
    else if n0 <? 0xF0 then
      match r0 with
      | String b1 (String b2 r2) =>
        x1 <-? continuation b1 ;; x2 <-? continuation b2 ;;
        c <-? point3 n0 x1 x2 ;; l <-? utf8_decode r2 ;; Some (c :: l)
      | _ => None
      end
    else if n0 <? 0xF5 then
      match r0 with
      | String b1 (String b2 (String b3 r3)) =>
        x1 <-? continuation b1 ;; x2 <-? continuation b2 ;;
        x3 <-? continuation b3 ;;
        c <-? point4 n0 x1 x2 x3 ;; l <-? utf8_decode r3 ;; Some (c :: l)
      | _ => None
      end
    else None
  end.

Definition utf8_encode_point (c : Z) : string :=
  if c <? 0x80 then String (byte c) ""
  else if c <? 0x800 then
    String (byte (0xC0 + c / 64)) (String (byte (0x80 + c mod 64)) "")
  else if c <? 0x10000 then
    String (byte (0xE0 + c / 4096))
      (String (byte (0x80 + (c / 64) mod 64))
         (String (byte (0x80 + c mod 64)) ""))
  else
    String (byte (0xF0 + c / 262144))
      (String (byte (0x80 + (c / 4096) mod 64))
         (String (byte (0x80 + (c / 64) mod 64))
            (String (byte (0x80 + c mod 64)) ""))).

Fixpoint utf8_encode (points : list Z) : string :=
  match points with
  | [] => ""
  | c :: rest => utf8_encode_point c ++ utf8_encode rest
  end.

Fixpoint in_ranges (c : Z) (ranges : list (Z * Z)) : bool :=
  match ranges with
  | [] => false
  | (first, last) :: rest =>
    ((first <=? c) && (c <=? last)) || in_ranges c rest
  end.

(** The [delta] of the run that holds [c]. *)
Fixpoint find_run (c : Z) (runs : list (Z * Z * Z * Z)) : option Z :=
  match runs with
  | [] => None
  | (first, last, step, delta) :: rest =>
    if (first <=? c) && (c <=? last) && ((c - first) mod step =? 0)
    then Some delta
    else find_run c rest
  end.




(** The code points that [str.lower] changes to one other code point, as
    runs [(first, last, step, delta)]: every [step]-th code point from
    [first] to [last] becomes itself plus [delta]. *)
Definition lower_runs : list (Z * Z * Z * Z) :=
  [
   (0x41, 0x5A, 1, 32); (0xC0, 0xD6, 1, 32); (0xD8, 0xDE, 1, 32);
   (0x100, 0x12E, 2, 1); (0x132, 0x136, 2, 1); (0x139, 0x147, 2, 1);
   (0x14A, 0x176, 2, 1); (0x178, 0x178, 1, (-121)); (0x179, 0x17D, 2, 1);
   (0x181, 0x181, 1, 210); (0x182, 0x184, 2, 1); (0x186, 0x186, 1, 206);
   (0x187, 0x187, 1, 1); (0x189, 0x18A, 1, 205); (0x18B, 0x18B, 1, 1);
   (0x18E, 0x18E, 1, 79); (0x18F, 0x18F, 1, 202); (0x190, 0x190, 1, 203);
   (0x191, 0x191, 1, 1); (0x193, 0x193, 1, 205); (0x194, 0x194, 1, 207);
   (0x196, 0x196, 1, 211); (0x197, 0x197, 1, 209); (0x198, 0x198, 1, 1);
   (0x19C, 0x19C, 1, 211); (0x19D, 0x19D, 1, 213); (0x19F, 0x19F, 1, 214);
   (0x1A0, 0x1A4, 2, 1); (0x1A6, 0x1A6, 1, 218); (0x1A7, 0x1A7, 1, 1);
   (0x1A9, 0x1A9, 1, 218); (0x1AC, 0x1AC, 1, 1); (0x1AE, 0x1AE, 1, 218);
   (0x1AF, 0x1AF, 1, 1); (0x1B1, 0x1B2, 1, 217); (0x1B3, 0x1B5, 2, 1);
   (0x1B7, 0x1B7, 1, 219); (0x1B8, 0x1B8, 1, 1); (0x1BC, 0x1BC, 1, 1);
   (0x1C4, 0x1C4, 1, 2); (0x1C5, 0x1C5, 1, 1); (0x1C7, 0x1C7, 1, 2);
   (0x1C8, 0x1C8, 1, 1); (0x1CA, 0x1CA, 1, 2); (0x1CB, 0x1DB, 2, 1);
   (0x1DE, 0x1EE, 2, 1); (0x1F1, 0x1F1, 1, 2); (0x1F2, 0x1F4, 2, 1);
   (0x1F6, 0x1F6, 1, (-97)); (0x1F7, 0x1F7, 1, (-56)); (0x1F8, 0x21E, 2, 1);
   (0x220, 0x220, 1, (-130)); (0x222, 0x232, 2, 1); (0x23A, 0x23A, 1, 10795);
   (0x23B, 0x23B, 1, 1); (0x23D, 0x23D, 1, (-163)); (0x23E, 0x23E, 1, 10792);
   (0x241, 0x241, 1, 1); (0x243, 0x243, 1, (-195)); (0x244, 0x244, 1, 69);
   (0x245, 0x245, 1, 71); (0x246, 0x24E, 2, 1); (0x370, 0x372, 2, 1);
   (0x376, 0x376, 1, 1); (0x37F, 0x37F, 1, 116); (0x386, 0x386, 1, 38);
   (0x388, 0x38A, 1, 37); (0x38C, 0x38C, 1, 64); (0x38E, 0x38F, 1, 63);
   (0x391, 0x3A1, 1, 32); (0x3A3, 0x3AB, 1, 32); (0x3CF, 0x3CF, 1, 8);
   (0x3D8, 0x3EE, 2, 1); (0x3F4, 0x3F4, 1, (-60)); (0x3F7, 0x3F7, 1, 1);
   (0x3F9, 0x3F9, 1, (-7)); (0x3FA, 0x3FA, 1, 1); (0x3FD, 0x3FF, 1, (-130));
   (0x400, 0x40F, 1, 80); (0x410, 0x42F, 1, 32); (0x460, 0x480, 2, 1);
   (0x48A, 0x4BE, 2, 1); (0x4C0, 0x4C0, 1, 15); (0x4C1, 0x4CD, 2, 1);
   (0x4D0, 0x52E, 2, 1); (0x531, 0x556, 1, 48); (0x10A0, 0x10C5, 1, 7264);
   (0x10C7, 0x10C7, 1, 7264); (0x10CD, 0x10CD, 1, 7264); (0x13A0, 0x13EF, 1, 38864);
   (0x13F0, 0x13F5, 1, 8); (0x1C90, 0x1CBA, 1, (-3008)); (0x1CBD, 0x1CBF, 1, (-3008));
   (0x1E00, 0x1E94, 2, 1); (0x1E9E, 0x1E9E, 1, (-7615)); (0x1EA0, 0x1EFE, 2, 1);
   (0x1F08, 0x1F0F, 1, (-8)); (0x1F18, 0x1F1D, 1, (-8)); (0x1F28, 0x1F2F, 1, (-8));
   (0x1F38, 0x1F3F, 1, (-8)); (0x1F48, 0x1F4D, 1, (-8)); (0x1F59, 0x1F5F, 2, (-8));
   (0x1F68, 0x1F6F, 1, (-8)); (0x1F88, 0x1F8F, 1, (-8)); (0x1F98, 0x1F9F, 1, (-8));
   (0x1FA8, 0x1FAF, 1, (-8)); (0x1FB8, 0x1FB9, 1, (-8)); (0x1FBA, 0x1FBB, 1, (-74));
   (0x1FBC, 0x1FBC, 1, (-9)); (0x1FC8, 0x1FCB, 1, (-86)); (0x1FCC, 0x1FCC, 1, (-9));
   (0x1FD8, 0x1FD9, 1, (-8)); (0x1FDA, 0x1FDB, 1, (-100)); (0x1FE8, 0x1FE9, 1, (-8));
   (0x1FEA, 0x1FEB, 1, (-112)); (0x1FEC, 0x1FEC, 1, (-7)); (0x1FF8, 0x1FF9, 1, (-128));
   (0x1FFA, 0x1FFB, 1, (-126)); (0x1FFC, 0x1FFC, 1, (-9)); (0x2126, 0x2126, 1, (-7517));
   (0x212A, 0x212A, 1, (-8383)); (0x212B, 0x212B, 1, (-8262)); (0x2132, 0x2132, 1, 28);
   (0x2160, 0x216F, 1, 16); (0x2183, 0x2183, 1, 1); (0x24B6, 0x24CF, 1, 26);
   (0x2C00, 0x2C2F, 1, 48); (0x2C60, 0x2C60, 1, 1); (0x2C62, 0x2C62, 1, (-10743));
   (0x2C63, 0x2C63, 1, (-3814)); (0x2C64, 0x2C64, 1, (-10727)); (0x2C67, 0x2C6B, 2, 1);
   (0x2C6D, 0x2C6D, 1, (-10780)); (0x2C6E, 0x2C6E, 1, (-10749)); (0x2C6F, 0x2C6F, 1, (-10783));
   (0x2C70, 0x2C70, 1, (-10782)); (0x2C72, 0x2C72, 1, 1); (0x2C75, 0x2C75, 1, 1);
   (0x2C7E, 0x2C7F, 1, (-10815)); (0x2C80, 0x2CE2, 2, 1); (0x2CEB, 0x2CED, 2, 1);
   (0x2CF2, 0x2CF2, 1, 1); (0xA640, 0xA66C, 2, 1); (0xA680, 0xA69A, 2, 1);
   (0xA722, 0xA72E, 2, 1); (0xA732, 0xA76E, 2, 1); (0xA779, 0xA77B, 2, 1);
   (0xA77D, 0xA77D, 1, (-35332)); (0xA77E, 0xA786, 2, 1); (0xA78B, 0xA78B, 1, 1);
   (0xA78D, 0xA78D, 1, (-42280)); (0xA790, 0xA792, 2, 1); (0xA796, 0xA7A8, 2, 1);
   (0xA7AA, 0xA7AA, 1, (-42308)); (0xA7AB, 0xA7AB, 1, (-42319)); (0xA7AC, 0xA7AC, 1, (-42315));
   (0xA7AD, 0xA7AD, 1, (-42305)); (0xA7AE, 0xA7AE, 1, (-42308)); (0xA7B0, 0xA7B0, 1, (-42258));
   (0xA7B1, 0xA7B1, 1, (-42282)); (0xA7B2, 0xA7B2, 1, (-42261)); (0xA7B3, 0xA7B3, 1, 928);
   (0xA7B4, 0xA7C2, 2, 1); (0xA7C4, 0xA7C4, 1, (-48)); (0xA7C5, 0xA7C5, 1, (-42307));
   (0xA7C6, 0xA7C6, 1, (-35384)); (0xA7C7, 0xA7C9, 2, 1); (0xA7D0, 0xA7D0, 1, 1);
   (0xA7D6, 0xA7D8, 2, 1); (0xA7F5, 0xA7F5, 1, 1); (0xFF21, 0xFF3A, 1, 32);
   (0x10400, 0x10427, 1, 40); (0x104B0, 0x104D3, 1, 40); (0x10570, 0x10594, 2, 39);
   (0x10571, 0x10579, 2, 39); (0x1057D, 0x10589, 2, 39); (0x1058D, 0x10591, 2, 39);
   (0x10595, 0x10595, 1, 39); (0x10C80, 0x10CB2, 1, 64); (0x118A0, 0x118BF, 1, 32);
   (0x16E40, 0x16E5F, 1, 32); (0x1E900, 0x1E921, 1, 34)
  ].

(** The case-ignorable code points, as ranges [(first, last)]. *)
Definition case_ignorable_ranges : list (Z * Z) :=
  [
   (0x27, 0x27); (0x2E, 0x2E); (0x3A, 0x3A); (0x5E, 0x5E);
   (0x60, 0x60); (0xA8, 0xA8); (0xAD, 0xAD); (0xAF, 0xAF);
   (0xB4, 0xB4); (0xB7, 0xB8); (0x2B0, 0x36F); (0x374, 0x375);
   (0x37A, 0x37A); (0x384, 0x385); (0x387, 0x387); (0x483, 0x489);
   (0x559, 0x559); (0x55F, 0x55F); (0x591, 0x5BD); (0x5BF, 0x5BF);
   (0x5C1, 0x5C2); (0x5C4, 0x5C5); (0x5C7, 0x5C7); (0x5F4, 0x5F4);
   (0x600, 0x605); (0x610, 0x61A); (0x61C, 0x61C); (0x640, 0x640);
   (0x64B, 0x65F); (0x670, 0x670); (0x6D6, 0x6DD); (0x6DF, 0x6E8);
   (0x6EA, 0x6ED); (0x70F, 0x70F); (0x711, 0x711); (0x730, 0x74A);
   (0x7A6, 0x7B0); (0x7EB, 0x7F5); (0x7FA, 0x7FA); (0x7FD, 0x7FD);
   (0x816, 0x82D); (0x859, 0x85B); (0x888, 0x888); (0x890, 0x891);
   (0x898, 0x89F); (0x8C9, 0x902); (0x93A, 0x93A); (0x93C, 0x93C);
   (0x941, 0x948); (0x94D, 0x94D); (0x951, 0x957); (0x962, 0x963);
   (0x971, 0x971); (0x981, 0x981); (0x9BC, 0x9BC); (0x9C1, 0x9C4);
   (0x9CD, 0x9CD); (0x9E2, 0x9E3); (0x9FE, 0x9FE); (0xA01, 0xA02);
   (0xA3C, 0xA3C); (0xA41, 0xA42); (0xA47, 0xA48); (0xA4B, 0xA4D);
   (0xA51, 0xA51); (0xA70, 0xA71); (0xA75, 0xA75); (0xA81, 0xA82);
   (0xABC, 0xABC); (0xAC1, 0xAC5); (0xAC7, 0xAC8); (0xACD, 0xACD);
   (0xAE2, 0xAE3); (0xAFA, 0xAFF); (0xB01, 0xB01); (0xB3C, 0xB3C);
   (0xB3F, 0xB3F); (0xB41, 0xB44); (0xB4D, 0xB4D); (0xB55, 0xB56);
   (0xB62, 0xB63); (0xB82, 0xB82); (0xBC0, 0xBC0); (0xBCD, 0xBCD);
   (0xC00, 0xC00); (0xC04, 0xC04); (0xC3C, 0xC3C); (0xC3E, 0xC40);
   (0xC46, 0xC48); (0xC4A, 0xC4D); (0xC55, 0xC56); (0xC62, 0xC63);
   (0xC81, 0xC81); (0xCBC, 0xCBC); (0xCBF, 0xCBF); (0xCC6, 0xCC6);
   (0xCCC, 0xCCD); (0xCE2, 0xCE3); (0xD00, 0xD01); (0xD3B, 0xD3C);
   (0xD41, 0xD44); (0xD4D, 0xD4D); (0xD62, 0xD63); (0xD81, 0xD81);
   (0xDCA, 0xDCA); (0xDD2, 0xDD4); (0xDD6, 0xDD6); (0xE31, 0xE31);
   (0xE34, 0xE3A); (0xE46, 0xE4E); (0xEB1, 0xEB1); (0xEB4, 0xEBC);
   (0xEC6, 0xEC6); (0xEC8, 0xECD); (0xF18, 0xF19); (0xF35, 0xF35);
   (0xF37, 0xF37); (0xF39, 0xF39); (0xF71, 0xF7E); (0xF80, 0xF84);
   (0xF86, 0xF87); (0xF8D, 0xF97); (0xF99, 0xFBC); (0xFC6, 0xFC6);
   (0x102D, 0x1030); (0x1032, 0x1037); (0x1039, 0x103A); (0x103D, 0x103E);
   (0x1058, 0x1059); (0x105E, 0x1060); (0x1071, 0x1074); (0x1082, 0x1082);
   (0x1085, 0x1086); (0x108D, 0x108D); (0x109D, 0x109D); (0x10FC, 0x10FC);
   (0x135D, 0x135F); (0x1712, 0x1714); (0x1732, 0x1733); (0x1752, 0x1753);
   (0x1772, 0x1773); (0x17B4, 0x17B5); (0x17B7, 0x17BD); (0x17C6, 0x17C6);
   (0x17C9, 0x17D3); (0x17D7, 0x17D7); (0x17DD, 0x17DD); (0x180B, 0x180F);
   (0x1843, 0x1843); (0x1885, 0x1886); (0x18A9, 0x18A9); (0x1920, 0x1922);
   (0x1927, 0x1928); (0x1932, 0x1932); (0x1939, 0x193B); (0x1A17, 0x1A18);
   (0x1A1B, 0x1A1B); (0x1A56, 0x1A56); (0x1A58, 0x1A5E); (0x1A60, 0x1A60);
   (0x1A62, 0x1A62); (0x1A65, 0x1A6C); (0x1A73, 0x1A7C); (0x1A7F, 0x1A7F);
   (0x1AA7, 0x1AA7); (0x1AB0, 0x1ACE); (0x1B00, 0x1B03); (0x1B34, 0x1B34);
   (0x1B36, 0x1B3A); (0x1B3C, 0x1B3C); (0x1B42, 0x1B42); (0x1B6B, 0x1B73);
   (0x1B80, 0x1B81); (0x1BA2, 0x1BA5); (0x1BA8, 0x1BA9); (0x1BAB, 0x1BAD);
   (0x1BE6, 0x1BE6); (0x1BE8, 0x1BE9); (0x1BED, 0x1BED); (0x1BEF, 0x1BF1);
   (0x1C2C, 0x1C33); (0x1C36, 0x1C37); (0x1C78, 0x1C7D); (0x1CD0, 0x1CD2);
   (0x1CD4, 0x1CE0); (0x1CE2, 0x1CE8); (0x1CED, 0x1CED); (0x1CF4, 0x1CF4);
   (0x1CF8, 0x1CF9); (0x1D2C, 0x1D6A); (0x1D78, 0x1D78); (0x1D9B, 0x1DFF);
   (0x1FBD, 0x1FBD); (0x1FBF, 0x1FC1); (0x1FCD, 0x1FCF); (0x1FDD, 0x1FDF);
   (0x1FED, 0x1FEF); (0x1FFD, 0x1FFE); (0x200B, 0x200F); (0x2018, 0x2019);
   (0x2024, 0x2024); (0x2027, 0x2027); (0x202A, 0x202E); (0x2060, 0x2064);
   (0x2066, 0x206F); (0x2071, 0x2071); (0x207F, 0x207F); (0x2090, 0x209C);
   (0x20D0, 0x20F0); (0x2C7C, 0x2C7D); (0x2CEF, 0x2CF1); (0x2D6F, 0x2D6F);
   (0x2D7F, 0x2D7F); (0x2DE0, 0x2DFF); (0x2E2F, 0x2E2F); (0x3005, 0x3005);
   (0x302A, 0x302D); (0x3031, 0x3035); (0x303B, 0x303B); (0x3099, 0x309E);
   (0x30FC, 0x30FE); (0xA015, 0xA015); (0xA4F8, 0xA4FD); (0xA60C, 0xA60C);
   (0xA66F, 0xA672); (0xA674, 0xA67D); (0xA67F, 0xA67F); (0xA69C, 0xA69F);
   (0xA6F0, 0xA6F1); (0xA700, 0xA721); (0xA770, 0xA770); (0xA788, 0xA78A);
   (0xA7F2, 0xA7F4); (0xA7F8, 0xA7F9); (0xA802, 0xA802); (0xA806, 0xA806);
   (0xA80B, 0xA80B); (0xA825, 0xA826); (0xA82C, 0xA82C); (0xA8C4, 0xA8C5);
   (0xA8E0, 0xA8F1); (0xA8FF, 0xA8FF); (0xA926, 0xA92D); (0xA947, 0xA951);
   (0xA980, 0xA982); (0xA9B3, 0xA9B3); (0xA9B6, 0xA9B9); (0xA9BC, 0xA9BD);
   (0xA9CF, 0xA9CF); (0xA9E5, 0xA9E6); (0xAA29, 0xAA2E); (0xAA31, 0xAA32);
   (0xAA35, 0xAA36); (0xAA43, 0xAA43); (0xAA4C, 0xAA4C); (0xAA70, 0xAA70);
   (0xAA7C, 0xAA7C); (0xAAB0, 0xAAB0); (0xAAB2, 0xAAB4); (0xAAB7, 0xAAB8);
   (0xAABE, 0xAABF); (0xAAC1, 0xAAC1); (0xAADD, 0xAADD); (0xAAEC, 0xAAED);
   (0xAAF3, 0xAAF4); (0xAAF6, 0xAAF6); (0xAB5B, 0xAB5F); (0xAB69, 0xAB6B);
   (0xABE5, 0xABE5); (0xABE8, 0xABE8); (0xABED, 0xABED); (0xFB1E, 0xFB1E);
   (0xFBB2, 0xFBC2); (0xFE00, 0xFE0F); (0xFE13, 0xFE13); (0xFE20, 0xFE2F);
   (0xFE52, 0xFE52); (0xFE55, 0xFE55); (0xFEFF, 0xFEFF); (0xFF07, 0xFF07);
   (0xFF0E, 0xFF0E); (0xFF1A, 0xFF1A); (0xFF3E, 0xFF3E); (0xFF40, 0xFF40);
   (0xFF70, 0xFF70); (0xFF9E, 0xFF9F); (0xFFE3, 0xFFE3); (0xFFF9, 0xFFFB);
   (0x101FD, 0x101FD); (0x102E0, 0x102E0); (0x10376, 0x1037A); (0x10780, 0x10785);
   (0x10787, 0x107B0); (0x107B2, 0x107BA); (0x10A01, 0x10A03); (0x10A05, 0x10A06);
   (0x10A0C, 0x10A0F); (0x10A38, 0x10A3A); (0x10A3F, 0x10A3F); (0x10AE5, 0x10AE6);
   (0x10D24, 0x10D27); (0x10EAB, 0x10EAC); (0x10F46, 0x10F50); (0x10F82, 0x10F85);
   (0x11001, 0x11001); (0x11038, 0x11046); (0x11070, 0x11070); (0x11073, 0x11074);
   (0x1107F, 0x11081); (0x110B3, 0x110B6); (0x110B9, 0x110BA); (0x110BD, 0x110BD);
   (0x110C2, 0x110C2); (0x110CD, 0x110CD); (0x11100, 0x11102); (0x11127, 0x1112B);
   (0x1112D, 0x11134); (0x11173, 0x11173); (0x11180, 0x11181); (0x111B6, 0x111BE);
   (0x111C9, 0x111CC); (0x111CF, 0x111CF); (0x1122F, 0x11231); (0x11234, 0x11234);
   (0x11236, 0x11237); (0x1123E, 0x1123E); (0x112DF, 0x112DF); (0x112E3, 0x112EA);
   (0x11300, 0x11301); (0x1133B, 0x1133C); (0x11340, 0x11340); (0x11366, 0x1136C);
   (0x11370, 0x11374); (0x11438, 0x1143F); (0x11442, 0x11444); (0x11446, 0x11446);
   (0x1145E, 0x1145E); (0x114B3, 0x114B8); (0x114BA, 0x114BA); (0x114BF, 0x114C0);
   (0x114C2, 0x114C3); (0x115B2, 0x115B5); (0x115BC, 0x115BD); (0x115BF, 0x115C0);
   (0x115DC, 0x115DD); (0x11633, 0x1163A); (0x1163D, 0x1163D); (0x1163F, 0x11640);
   (0x116AB, 0x116AB); (0x116AD, 0x116AD); (0x116B0, 0x116B5); (0x116B7, 0x116B7);
   (0x1171D, 0x1171F); (0x11722, 0x11725); (0x11727, 0x1172B); (0x1182F, 0x11837);
   (0x11839, 0x1183A); (0x1193B, 0x1193C); (0x1193E, 0x1193E); (0x11943, 0x11943);
   (0x119D4, 0x119D7); (0x119DA, 0x119DB); (0x119E0, 0x119E0); (0x11A01, 0x11A0A);
   (0x11A33, 0x11A38); (0x11A3B, 0x11A3E); (0x11A47, 0x11A47); (0x11A51, 0x11A56);
   (0x11A59, 0x11A5B); (0x11A8A, 0x11A96); (0x11A98, 0x11A99); (0x11C30, 0x11C36);
   (0x11C38, 0x11C3D); (0x11C3F, 0x11C3F); (0x11C92, 0x11CA7); (0x11CAA, 0x11CB0);
   (0x11CB2, 0x11CB3); (0x11CB5, 0x11CB6); (0x11D31, 0x11D36); (0x11D3A, 0x11D3A);
   (0x11D3C, 0x11D3D); (0x11D3F, 0x11D45); (0x11D47, 0x11D47); (0x11D90, 0x11D91);
   (0x11D95, 0x11D95); (0x11D97, 0x11D97); (0x11EF3, 0x11EF4); (0x13430, 0x13438);
   (0x16AF0, 0x16AF4); (0x16B30, 0x16B36); (0x16B40, 0x16B43); (0x16F4F, 0x16F4F);
   (0x16F8F, 0x16F9F); (0x16FE0, 0x16FE1); (0x16FE3, 0x16FE4); (0x1AFF0, 0x1AFF3);
   (0x1AFF5, 0x1AFFB); (0x1AFFD, 0x1AFFE); (0x1BC9D, 0x1BC9E); (0x1BCA0, 0x1BCA3);
   (0x1CF00, 0x1CF2D); (0x1CF30, 0x1CF46); (0x1D167, 0x1D169); (0x1D173, 0x1D182);
   (0x1D185, 0x1D18B); (0x1D1AA, 0x1D1AD); (0x1D242, 0x1D244); (0x1DA00, 0x1DA36);
   (0x1DA3B, 0x1DA6C); (0x1DA75, 0x1DA75); (0x1DA84, 0x1DA84); (0x1DA9B, 0x1DA9F);
   (0x1DAA1, 0x1DAAF); (0x1E000, 0x1E006); (0x1E008, 0x1E018); (0x1E01B, 0x1E021);
   (0x1E023, 0x1E024); (0x1E026, 0x1E02A); (0x1E130, 0x1E13D); (0x1E2AE, 0x1E2AE);
   (0x1E2EC, 0x1E2EF); (0x1E8D0, 0x1E8D6); (0x1E944, 0x1E94B); (0x1F3FB, 0x1F3FF);
   (0xE0001, 0xE0001); (0xE0020, 0xE007F); (0xE0100, 0xE01EF)
  ].

(** The cased code points that are not case-ignorable, as ranges. *)
Definition cased_ranges : list (Z * Z) :=
  [
   (0x41, 0x5A); (0x61, 0x7A); (0xAA, 0xAA); (0xB5, 0xB5);
   (0xBA, 0xBA); (0xC0, 0xD6); (0xD8, 0xF6); (0xF8, 0x1BA);
   (0x1BC, 0x1BF); (0x1C4, 0x293); (0x295, 0x2AF); (0x370, 0x373);
   (0x376, 0x377); (0x37B, 0x37D); (0x37F, 0x37F); (0x386, 0x386);
   (0x388, 0x38A); (0x38C, 0x38C); (0x38E, 0x3A1); (0x3A3, 0x3F5);
   (0x3F7, 0x481); (0x48A, 0x52F); (0x531, 0x556); (0x560, 0x588);
   (0x10A0, 0x10C5); (0x10C7, 0x10C7); (0x10CD, 0x10CD); (0x10D0, 0x10FA);
   (0x10FD, 0x10FF); (0x13A0, 0x13F5); (0x13F8, 0x13FD); (0x1C80, 0x1C88);
   (0x1C90, 0x1CBA); (0x1CBD, 0x1CBF); (0x1D00, 0x1D2B); (0x1D6B, 0x1D77);
   (0x1D79, 0x1D9A); (0x1E00, 0x1F15); (0x1F18, 0x1F1D); (0x1F20, 0x1F45);
   (0x1F48, 0x1F4D); (0x1F50, 0x1F57); (0x1F59, 0x1F59); (0x1F5B, 0x1F5B);
   (0x1F5D, 0x1F5D); (0x1F5F, 0x1F7D); (0x1F80, 0x1FB4); (0x1FB6, 0x1FBC);
   (0x1FBE, 0x1FBE); (0x1FC2, 0x1FC4); (0x1FC6, 0x1FCC); (0x1FD0, 0x1FD3);
   (0x1FD6, 0x1FDB); (0x1FE0, 0x1FEC); (0x1FF2, 0x1FF4); (0x1FF6, 0x1FFC);
   (0x2102, 0x2102); (0x2107, 0x2107); (0x210A, 0x2113); (0x2115, 0x2115);
   (0x2119, 0x211D); (0x2124, 0x2124); (0x2126, 0x2126); (0x2128, 0x2128);
   (0x212A, 0x212D); (0x212F, 0x2134); (0x2139, 0x2139); (0x213C, 0x213F);
   (0x2145, 0x2149); (0x214E, 0x214E); (0x2160, 0x217F); (0x2183, 0x2184);
   (0x24B6, 0x24E9); (0x2C00, 0x2C7B); (0x2C7E, 0x2CE4); (0x2CEB, 0x2CEE);
   (0x2CF2, 0x2CF3); (0x2D00, 0x2D25); (0x2D27, 0x2D27); (0x2D2D, 0x2D2D);
   (0xA640, 0xA66D); (0xA680, 0xA69B); (0xA722, 0xA76F); (0xA771, 0xA787);
   (0xA78B, 0xA78E); (0xA790, 0xA7CA); (0xA7D0, 0xA7D1); (0xA7D3, 0xA7D3);
   (0xA7D5, 0xA7D9); (0xA7F5, 0xA7F6); (0xA7FA, 0xA7FA); (0xAB30, 0xAB5A);
   (0xAB60, 0xAB68); (0xAB70, 0xABBF); (0xFB00, 0xFB06); (0xFB13, 0xFB17);
   (0xFF21, 0xFF3A); (0xFF41, 0xFF5A); (0x10400, 0x1044F); (0x104B0, 0x104D3);
   (0x104D8, 0x104FB); (0x10570, 0x1057A); (0x1057C, 0x1058A); (0x1058C, 0x10592);
   (0x10594, 0x10595); (0x10597, 0x105A1); (0x105A3, 0x105B1); (0x105B3, 0x105B9);
   (0x105BB, 0x105BC); (0x10C80, 0x10CB2); (0x10CC0, 0x10CF2); (0x118A0, 0x118DF);
   (0x16E40, 0x16E7F); (0x1D400, 0x1D454); (0x1D456, 0x1D49C); (0x1D49E, 0x1D49F);
   (0x1D4A2, 0x1D4A2); (0x1D4A5, 0x1D4A6); (0x1D4A9, 0x1D4AC); (0x1D4AE, 0x1D4B9);
   (0x1D4BB, 0x1D4BB); (0x1D4BD, 0x1D4C3); (0x1D4C5, 0x1D505); (0x1D507, 0x1D50A);
   (0x1D50D, 0x1D514); (0x1D516, 0x1D51C); (0x1D51E, 0x1D539); (0x1D53B, 0x1D53E);
   (0x1D540, 0x1D544); (0x1D546, 0x1D546); (0x1D54A, 0x1D550); (0x1D552, 0x1D6A5);
   (0x1D6A8, 0x1D6C0); (0x1D6C2, 0x1D6DA); (0x1D6DC, 0x1D6FA); (0x1D6FC, 0x1D714);
   (0x1D716, 0x1D734); (0x1D736, 0x1D74E); (0x1D750, 0x1D76E); (0x1D770, 0x1D788);
   (0x1D78A, 0x1D7A8); (0x1D7AA, 0x1D7C2); (0x1D7C4, 0x1D7CB); (0x1DF00, 0x1DF09);
   (0x1DF0B, 0x1DF1E); (0x1E900, 0x1E943); (0x1F130, 0x1F149); (0x1F150, 0x1F169);
   (0x1F170, 0x1F189)
  ].

(** The code point of the digit zero of every block of decimal digits
    (category [Nd]); the nine that follow it are the digits one to nine. *)
Definition decimal_zeros : list Z :=
  [
   0x30; 0x660; 0x6F0; 0x7C0; 0x966; 0x9E6; 0xA66; 0xAE6;
   0xB66; 0xBE6; 0xC66; 0xCE6; 0xD66; 0xDE6; 0xE50; 0xED0;
   0xF20; 0x1040; 0x1090; 0x17E0; 0x1810; 0x1946; 0x19D0; 0x1A80;
   0x1A90; 0x1B50; 0x1BB0; 0x1C40; 0x1C50; 0xA620; 0xA8D0; 0xA900;
   0xA9D0; 0xA9F0; 0xAA50; 0xABF0; 0xFF10; 0x104A0; 0x10D30; 0x11066;
   0x110F0; 0x11136; 0x111D0; 0x112F0; 0x11450; 0x114D0; 0x11650; 0x116C0;
   0x11730; 0x118E0; 0x11950; 0x11C50; 0x11D50; 0x11DA0; 0x16A60; 0x16AC0;
   0x16B50; 0x1D7CE; 0x1D7D8; 0x1D7E2; 0x1D7EC; 0x1D7F6; 0x1E140; 0x1E2F0;
   0x1E950; 0x1FBF0
  ].

Definition capital_sigma : Z := 0x3A3.
Definition small_sigma : Z := 0x3C3.
Definition final_small_sigma : Z := 0x3C2.

(** The full lower-case mapping of one code point, without its context:
    U+0130 becomes two code points, a code point of [lower_runs] moves by
    the delta of its run, any other stays. *)
Definition to_lower_full (c : Z) : list Z :=
  if c =? 0x130 then [0x69; 0x307]
  else
    match find_run c lower_runs with
    | Some delta => [c + delta]
    | None => [c]
    end.

Definition is_case_ignorable (c : Z) : bool :=
  in_ranges c case_ignorable_ranges.

(** Asked only of code points that are not case-ignorable. *)
Definition is_cased (c : Z) : bool := in_ranges c cased_ranges.

(** The first code point that is not case-ignorable. *)
Fixpoint skip_ignorable (points : list Z) : option Z :=
  match points with
  | [] => None
  | c :: rest => if is_case_ignorable c then skip_ignorable rest else Some c
  end.

(** A capital sigma is in final position when a cased letter comes before
    it and none comes after it, case-ignorable code points not counting;
    [before] is what precedes it, nearest first. *)
Definition final_sigma (before after : list Z) : bool :=
  match skip_ignorable before with
  | Some c =>
    is_cased c &&
    match skip_ignorable after with
    | Some c' => negb (is_cased c')
    | None => true
    end
  | None => false
  end.

Fixpoint lower_from (before points : list Z) : list Z :=
  match points with
  | [] => []
  | c :: rest =>
    (if c =? capital_sigma
     then [if final_sigma before rest then final_small_sigma else small_sigma]
     else to_lower_full c)
    ++ lower_from (c :: before) rest
  end.

Definition lower_points (points : list Z) : list Z := lower_from [] points.

(** The value of a decimal digit of any script. *)
Fixpoint decimal_in (c : Z) (zeros : list Z) : option Z :=
  match zeros with
  | [] => None
  | zero :: rest =>
    if (zero <=? c) && (c <=? zero + 9) then Some (c - zero)
    else decimal_in c rest
  end.

Definition decimal_value (c : Z) : option Z := decimal_in c decimal_zeros.

(** [s.lower()]: the bytes of an ASCII text are folded one by one; any
    other text is lower-cased code point by code point, a capital sigma
    according to its position.  (A text that is not UTF-8 stands for no
    [str]; it is left as it is.) *)
Definition lower (s : string) : string :=
  if is_ascii s then ascii_lower s
  else
    match utf8_decode s with
    | Some points => utf8_encode (lower_points points)
    | None => s
    end.


(** [\d] of a regular expression: one decimal digit of any script, and its
    value. *)
Definition take_decimal (s : string) : option (Z * string) :=
  '(c, r) <-? utf8_first s ;; v <-? decimal_value c ;; Some (v, r).

(* ------------------------------------------------------------------ *)
(** * Naive datetimes *)

Definition is_leap (y : Z) : bool :=
  ((y mod 4 =? 0) && negb (y mod 100 =? 0)) || (y mod 400 =? 0).

Definition days_in_month (y m : Z) : Z :=
  if m =? 2 then (if is_leap y then 29 else 28)
  else if (m =? 4) || (m =? 6) || (m =? 9) || (m =? 11) then 30
  else 31.

(** The range checks of the [datetime] constructor. *)
Definition valid_fields (y mo d h mi s us : Z) : bool :=
  (1 <=? y) && (y <=? 9999) &&
  (1 <=? mo) && (mo <=? 12) &&
  (1 <=? d) && (d <=? days_in_month y mo) &&
  (0 <=? h) && (h <=? 23) &&
  (0 <=? mi) && (mi <=? 59) &&
  (0 <=? s) && (s <=? 59) &&
  (0 <=? us) && (us <=? 999999).

Record datetime := mk_datetime {
  year : Z;
  month : Z;
  day : Z;
  hour : Z;
  minute : Z;
  second : Z;
  microsecond : Z;
  datetime_ok : valid_fields year month day hour minute second microsecond = true
}.

(** [datetime(y, mo, d, h, mi, s, us)]; [None] stands for its [ValueError]. *)
Definition make_datetime (y mo d h mi s us : Z) : option datetime :=
  match valid_fields y mo d h mi s us as b
        return valid_fields y mo d h mi s us = b -> option datetime with
  | true => fun H => Some (mk_datetime y mo d h mi s us H)
  | false => fun _ => None
  end eq_refl.

Definition cmp_then (c k : comparison) : comparison :=
  match c with
  | Eq => k
  | _ => c
  end.

(** Comparison of two naive datetimes: field by field, most significant
    first. *)
Definition dt_compare (a b : datetime) : comparison :=
  cmp_then (year a ?= year b)
  (cmp_then (month a ?= month b)
  (cmp_then (day a ?= day b)
  (cmp_then (hour a ?= hour b)
  (cmp_then (minute a ?= minute b)
  (cmp_then (second a ?= second b)
            (microsecond a ?= microsecond b)))))).

(** [a < b] and [a > b]. *)
Definition dt_ltb (a b : datetime) : bool :=
  match dt_compare a b with
  | Lt => true
  | _ => false
  end.

Definition dt_gtb (a b : datetime) : bool :=
  match dt_compare a b with
  | Gt => true
  | _ => false
  end.

(** A datetime as one number, most significant field first; the order of
    these numbers is the order of the datetimes ([dt_compare_key]). *)
Definition dt_key (t : datetime) : Z :=
  (((((year t * 13 + month t) * 32 + day t) * 24 + hour t) * 60 + minute t)
   * 60 + second t) * 1000000 + microsecond t.

(** ** Rendering and parsing decimal fields *)

Definition digit_char (d : Z) : ascii :=
  ascii_of_nat (48 + Z.to_nat d).

Definition digit_val (c : ascii) : option Z :=
  let n := Z.of_nat (nat_of_ascii c) in
  if (48 <=? n) && (n <=? 57) then Some (n - 48) else None.

(** ["%0<width>d" % n] for [0 <= n < 10 ^ width]: the [width] low decimal
    digits of [n], most significant first. *)
Fixpoint zfill (width : nat) (n : Z) : string :=
  match width with
  | O => ""
  | S w => String (digit_char ((n / 10 ^ Z.of_nat w) mod 10)) (zfill w n)
  end.

(** Reads exactly [k] decimal digits from the front of [s]. *)
Fixpoint take_digits_from (k : nat) (acc : Z) (s : string)
  : option (Z * string) :=
  match k with
  | O => Some (acc, s)
  | S k' =>
    match s with
    | EmptyString => None
    | String c s' =>
      v <-? digit_val c ;; take_digits_from k' (acc * 10 + v) s'
    end
  end.

Definition take_digits (k : nat) (s : string) : option (Z * string) :=
  take_digits_from k 0 s.

(** Reads the literal character [c]. *)
Definition expect (c : ascii) (s : string) : option string :=
  match s with
  | String c' s' => if Ascii.eqb c c' then Some s' else None
  | EmptyString => None
  end.

(** [d.isoformat()]: [YYYY-MM-DDTHH:MM:SS], followed by [.ffffff] when the
    microsecond field is not zero. *)
Definition isoformat (d : datetime) : string :=
  zfill 4 (year d) ++ "-" ++ zfill 2 (month d) ++ "-" ++ zfill 2 (day d)
  ++ "T" ++ zfill 2 (hour d) ++ ":" ++ zfill 2 (minute d) ++ ":"
  ++ zfill 2 (second d)
  ++ (if microsecond d =? 0 then "" else "." ++ zfill 6 (microsecond d)).

(** [datetime.fromisoformat(s)] on the strings that [isoformat] emits for a
    naive datetime ([YYYY-MM-DDTHH:MM:SS] and [YYYY-MM-DDTHH:MM:SS.ffffff]);
    [None] stands for the [ValueError] raised on anything else. *)
Definition fromisoformat (s : string) : option datetime :=
  '(y, s) <-? take_digits 4 s ;;
  s <-? expect "-" s ;;
  '(mo, s) <-? take_digits 2 s ;;
  s <-? expect "-" s ;;
  '(d, s) <-? take_digits 2 s ;;
  s <-? expect "T" s ;;
  '(h, s) <-? take_digits 2 s ;;
  s <-? expect ":" s ;;
  '(mi, s) <-? take_digits 2 s ;;
  s <-? expect ":" s ;;
  '(sec, s) <-? take_digits 2 s ;;
  match s with
  | EmptyString => make_datetime y mo d h mi sec 0
  | String c s' =>
    if Ascii.eqb c "." then
      '(us, rest) <-? take_digits 6 s' ;;
      match rest with
      | EmptyString => make_datetime y mo d h mi sec us
      | String _ _ => None
      end
    else None
  end.

(** ** [datetime.strptime(s, '%Y-%m-%d')]

    The library turns the format into the regular expression
    [(?P<Y>\d\d\d\d)-(?P<m>1[0-2]|0[1-9]|[1-9])-(?P<d>3[0-1]|[1-2]\d|0[1-9]|[1-9]| [1-9])],
    matches it at the start of the string, rejects the string when
    characters remain after the match, and builds the date from the three
    groups.  A group is modelled by the list of its possible matches, in the
    order in which the backtracking matcher tries them; [\d] matches the
    decimal digits of every script, a class such as [[1-9]] the ASCII ones
    only. *)

Definition digit_in (lo hi : Z) (c : ascii) : option Z :=
  v <-? digit_val c ;; if (lo <=? v) && (v <=? hi) then Some v else None.

Definition space_char (c : ascii) : option Z :=
  if Ascii.eqb c " " then Some 0 else None.

Definition one_char (p : ascii -> option Z) (s : string)
  : list (Z * string) :=
  match s with
  | String c r =>
    match p c with
    | Some v => [(v, r)]
    | None => []
    end
  | EmptyString => []
  end.

Definition two_chars (p1 p2 : ascii -> option Z) (s : string)
  : list (Z * string) :=
  match s with
  | String c1 (String c2 r) =>
    match p1 c1, p2 c2 with
    | Some v1, Some v2 => [(10 * v1 + v2, r)]
    | _, _ => []
    end
  | _ => []
  end.

(** [k] times [\d], read as one number by [int]. *)
Fixpoint take_decimals_from (k : nat) (acc : Z) (s : string)
  : option (Z * string) :=
  match k with
  | O => Some (acc, s)
  | S k' =>
    '(v, r) <-? take_decimal s ;; take_decimals_from k' (acc * 10 + v) r
  end.

(** An alternative made of a character class and [\d]. *)
Definition char_then_decimal (p1 : ascii -> option Z) (s : string)
  : list (Z * string) :=
  match s with
  | String c1 r =>
    match p1 c1, take_decimal r with
    | Some v1, Some (v2, r') => [(10 * v1 + v2, r')]
    | _, _ => []
    end
  | EmptyString => []
  end.

Definition re_Y (s : string) : list (Z * string) :=
  match take_decimals_from 4 0 s with
  | Some r => [r]
  | None => []
  end.

Definition re_m (s : string) : list (Z * string) :=
  two_chars (digit_in 1 1) (digit_in 0 2) s
  ++ two_chars (digit_in 0 0) (digit_in 1 9) s
  ++ one_char (digit_in 1 9) s.

Definition re_d (s : string) : list (Z * string) :=
  two_chars (digit_in 3 3) (digit_in 0 1) s
  ++ char_then_decimal (digit_in 1 2) s
  ++ two_chars (digit_in 0 0) (digit_in 1 9) s
  ++ one_char (digit_in 1 9) s
  ++ two_chars space_char (digit_in 1 9) s.

Definition re_lit (c : ascii) (s : string) : list string :=
  match expect c s with
  | Some r => [r]
  | None => []
  end.

(** The first match of the whole expression: the three groups and the
    unconsumed rest of the string. *)
Definition re_match (s : string) : option (Z * Z * Z * string) :=
  hd_error
    (flat_map (fun '(y, s1) =>
     flat_map (fun s2 =>
     flat_map (fun '(m, s3) =>
     flat_map (fun s4 =>
     map (fun '(d, rest) => (y, m, d, rest)) (re_d s4))
     (re_lit "-" s3)) (re_m s2)) (re_lit "-" s1)) (re_Y s)).

(** [None] stands for the [ValueError] of a string that does not match, has
    unconverted data left, or names no calendar date. *)
Definition strptime (s : string) : option datetime :=
  match re_match s with
  | Some (y, m, d, EmptyString) => make_datetime y m d 0 0 0 0
  | _ => None
  end.

(* ------------------------------------------------------------------ *)
(** * The data model *)

(** What reading [delivery_time] yields when it is not [None]: a
    [datetime], or some other object, with its truth value, on which
    [isoformat()] raises [AttributeError]. *)
Inductive delivery_value :=
| Datetime (t : datetime)
| Other (truthy : bool).

(** A message object of the archive library.  Each text attribute is [None]
    or a [str]; reading [delivery_time] yields [None] or a value, or
    raises. *)
Module Message.
Record t := mk {
  subject : option string;
  plain_text_body : option string;
  html_body : option string;
  sender_name : option string;
  display_to : option string;
  delivery_time : result (option delivery_value)
}.
End Message.

(** The dictionary built by [extract_email_fields]. *)
Module Email.
Record t := mk {
  subject : string;
  body : string;
  from : string;
  to : string;
  delivery_time : option string
}.
End Email.

(** The [criteria] dictionary built by [main]. *)
Module Criteria.
Record t := mk {
  date_from : option datetime;
  date_to : option datetime;
  from_address : option string;
  subject : option string;
  body : option string
}.
End Criteria.

(** The namespace returned by [parse_arguments]. *)
Module Args.
Record t := mk {
  pst_path : string;
  date_from : option string;
  date_to : option string;
  from_address : option string;
  subject : option string;
  body : option string;
  output : string
}.
End Args.

(** A folder object of the archive library. *)
#[warning="-register-all"] Inductive folder :=
| Folder (sub_folders : list folder) (messages : list Message.t).

Definition sub_folders (f : folder) : list folder :=
  match f with
  | Folder subs _ => subs
  end.

Definition messages (f : folder) : list Message.t :=
  match f with
  | Folder _ msgs => msgs
  end.

Definition number_of_sub_folders (f : folder) : nat :=
  List.length (sub_folders f).

Definition number_of_messages (f : folder) : nat :=
  List.length (messages f).

Definition get_sub_folder (f : folder) (i : nat) : result folder :=
  match nth_error (sub_folders f) i with
  | Some sub => Ok sub
  | None => Raise IndexError
  end.

Definition get_message (f : folder) (i : nat) : result Message.t :=
  match nth_error (messages f) i with
  | Some m => Ok m
  | None => Raise IndexError
  end.

(* ------------------------------------------------------------------ *)
(** * [extract_email_fields] *)

(** [if value:] on what the read yielded. *)
Definition value_truthy (value : option delivery_value) : bool :=
  match value with
  | None => false
  | Some (Datetime _) => true
  | Some (Other truthy) => truthy
  end.

(** [value.isoformat()]. *)
Definition call_isoformat (value : option delivery_value) : result string :=
  match value with
  | Some (Datetime d) => Ok (isoformat d)
  | Some (Other _) => Raise AttributeError
  | None => Raise AttributeError
  end.

(** The body of the [try] (lines 53-56): the attribute is read for the test
    and read again for the rendering. *)
Definition delivery_time_attempt (message : Message.t)
  : result (option string) :=
  t <- Message.delivery_time message ;;
  if value_truthy t then
    t' <- Message.delivery_time message ;;
    iso <- call_isoformat t' ;;
    Ok (Some iso)
  else Ok None.

Definition extract_email_fields (message : Message.t) : Email.t :=
  {| Email.subject := or_empty (Message.subject message);
     Email.body :=
       or_empty (py_or (Message.plain_text_body message)
                       (Message.html_body message));
     Email.from := or_empty (Message.sender_name message);
     Email.to := or_empty (Message.display_to message);
     Email.delivery_time :=
       try_except (delivery_time_attempt message) (fun _ => None) |}.

(* ------------------------------------------------------------------ *)
(** * [email_matches_criteria] *)

Definition is_set {A} (o : option A) : bool :=
  match o with
  | Some _ => true
  | None => false
  end.

(** [bound and email_date < bound], [bound and email_date > bound]. *)
Definition before (email_date : datetime) (bound : option datetime) : bool :=
  match bound with
  | Some b => dt_ltb email_date b
  | None => false
  end.

Definition after (email_date : datetime) (bound : option datetime) : bool :=
  match bound with
  | Some b => dt_gtb email_date b
  | None => false
  end.

(** [criterion and criterion.lower() not in field.lower()]. *)
Definition lacks (criterion : option string) (field : string) : bool :=
  match criterion with
  | Some needle =>
    str_truthy needle && negb (contains (lower needle) (lower field))
  | None => false
  end.

(** The date block (lines 63-70): [Ok false] is its [return False], [Ok true]
    is falling through to the next check. *)
Definition date_range_check (email : Email.t) (criteria : Criteria.t)
  : result bool :=
  if is_set (Criteria.date_from criteria) || is_set (Criteria.date_to criteria)
  then
    if negb (truthy (Email.delivery_time email)) then Ok false
    else
      match Email.delivery_time email with
      | None => Ok false
      | Some iso =>
        match fromisoformat iso with
        | None => Raise (ValueError "Invalid isoformat string")
        | Some email_date =>
          if before email_date (Criteria.date_from criteria) then Ok false
          else if after email_date (Criteria.date_to criteria) then Ok false
          else Ok true
        end
      end
  else Ok true.

Definition email_matches_criteria (email : Email.t) (criteria : Criteria.t)
  : result bool :=
  in_range <- date_range_check email criteria ;;
  if negb in_range then Ok false
  else if lacks (Criteria.from_address criteria) (Email.from email)
  then Ok false
  else if lacks (Criteria.subject criteria) (Email.subject email)
  then Ok false
  else if lacks (Criteria.body criteria) (Email.body email)
  then Ok false
  else Ok true.

(* ------------------------------------------------------------------ *)
(** * [get_folder_emails] *)

(** The body of the second loop (lines 40-43). *)
Definition visit_message (criteria : Criteria.t) (message : Message.t)
  (emails : list Email.t) : result (list Email.t) :=
  let email := extract_email_fields message in
  matched <- email_matches_criteria email criteria ;;
  if matched then Ok (emails ++ [email])%list else Ok emails.

(** The list [emails] is the accumulator that the Python code mutates in
    place; it is threaded through the calls.  The recursion follows the
    folder tree; [get_folder_emails_unfold] below shows that it is the
    source's pair of index loops. *)
Fixpoint get_folder_emails (folder : folder) (criteria : Criteria.t)
  (emails : list Email.t) {struct folder} : result (list Email.t) :=
  match folder with
  | Folder subs msgs =>
    emails <-
      (fix sub_loop (subs : list _) (emails : list Email.t) :=
         match subs with
         | [] => Ok emails
         | sub_folder :: rest =>
           emails <- get_folder_emails sub_folder criteria emails ;;
           sub_loop rest emails
         end) subs emails ;;
    for_each (visit_message criteria) msgs emails
  end.

(* ------------------------------------------------------------------ *)
(** * The driver: [open_pst] and [main] *)

(** What a run does that can be observed from outside, in order. *)
Inductive event :=
| Print (line : string)
| IsFile (path : string)
| PstOpen (path : string)
| GetRootFolder
| WriteJson (path : string) (emails : list Email.t)
| PstClose
| Traceback (e : exception).

(** The environment of a run: the file system and the archive library.  An
    opened archive is represented by its root folder. *)
Record World := mk_World {
  isfile : string -> bool;
  pst_open : string -> result folder;
  json_dump : string -> list Email.t -> result unit
}.

Inductive outcome (A : Type) :=
| Done (a : A)
| Exit (status : Z).

Arguments Done {A} a.
Arguments Exit {A} status.

(** A step of the process: it extends the trace of events and either goes
    on with a value or terminates the process with a status. *)
Definition proc (A : Type) : Type := list event -> list event * outcome A.

Definition ret {A} (a : A) : proc A := fun tr => (tr, Done a).

Definition pbind {A B} (p : proc A) (k : A -> proc B) : proc B :=
  fun tr =>
    match p tr with
    | (tr', Done a) => k a tr'
    | (tr', Exit n) => (tr', Exit n)
    end.

Notation "x <~ p ;; k" := (pbind p (fun x => k))
  (at level 61, p at next level, right associativity).
Notation "p ;;; k" := (pbind p (fun _ => k))
  (at level 61, right associativity).

Definition emit (e : event) : proc unit :=
  fun tr => ((tr ++ [e])%list, Done tt).

Definition print (line : string) : proc unit := emit (Print line).

Definition sys_exit {A} (status : Z) : proc A := fun tr => (tr, Exit status).

(** [str(e)] and [str(n)]. *)
Definition exception_str (e : exception) : string :=
  match e with
  | ValueError msg => msg
  | AttributeError => "AttributeError"
  | IndexError => "IndexError"
  | IOError msg => msg
  end.

Definition str_of_nat (n : nat) : string :=
  NilEmpty.string_of_uint (Nat.to_uint n).

Definition open_pst (w : World) (pst_path : string) : proc folder :=
  emit (IsFile pst_path) ;;;
  if negb (isfile w pst_path) then
    print ("Error: The file '" ++ pst_path ++ "' does not exist.") ;;;
    sys_exit 1
  else
    emit (PstOpen pst_path) ;;;
    match pst_open w pst_path with
    | Ok pst => ret pst
    | Raise e =>
      print ("Error opening PST file: " ++ exception_str e) ;;;
      sys_exit 1
    end.

(** One of the two date blocks of [main] (lines 94-101 and 103-110). *)
Definition parse_date (arg : option string) (option_name : string)
  : proc (option datetime) :=
  match arg with
  | Some s =>
    if str_truthy s then
      match strptime s with
      | Some d => ret (Some d)
      | None =>
        print ("Error: " ++ option_name ++ " must be in YYYY-MM-DD format.") ;;;
        sys_exit 1
      end
    else ret None
  | None => ret None
  end.

(** Lines 93-114 of [main]: the criteria dictionary. *)
Definition build_criteria (args : Args.t) : proc Criteria.t :=
  date_from <~ parse_date (Args.date_from args) "--date-from" ;;
  date_to <~ parse_date (Args.date_to args) "--date-to" ;;
  ret {| Criteria.date_from := date_from;
         Criteria.date_to := date_to;
         Criteria.from_address := Args.from_address args;
         Criteria.subject := Args.subject args;
         Criteria.body := Args.body args |}.

(** [main], after [parse_arguments] has returned [args].  An exception that
    nothing catches ends the process with a traceback and status 1. *)
Definition main (w : World) (args : Args.t) : proc unit :=
  criteria <~ build_criteria args ;;
  root <~ (pst <~ open_pst w (Args.pst_path args) ;;
           emit GetRootFolder ;;; ret pst) ;;
  emails <~
    match get_folder_emails root criteria [] with
    | Ok emails => ret emails
    | Raise e => emit (Traceback e) ;;; sys_exit 1
    end ;;
  emit (WriteJson (Args.output args) emails) ;;;
  match json_dump w (Args.output args) emails with
  | Ok _ =>
    print ("Successfully extracted " ++ str_of_nat (List.length emails)
           ++ " emails to '" ++ Args.output args ++ "'.")
  | Raise e =>
    print ("Error writing to JSON file: " ++ exception_str e) ;;;
    sys_exit 1
  end ;;;
  emit PstClose.

(** A whole run: the trace and the exit status. *)
Definition run (w : World) (args : Args.t) : list event * Z :=
  match main w args [] with
  | (tr, Done _) => (tr, 0)
  | (tr, Exit n) => (tr, n)
  end.

(** The events that touch the archive or its file. *)
Definition archive_access (e : event) : bool :=
  match e with
  | IsFile _ | PstOpen _ | GetRootFolder | PstClose => true
  | _ => false
  end.

(* ------------------------------------------------------------------ *)
(** * Notions of the specification *)

(** The order in which the specification's algorithm reaches the messages
    of a folder tree: those of every sub-folder first, sub-folders taken in
    index order, then the folder's own messages in index order. *)
Fixpoint walk_order (f : folder) : list Message.t :=
  match f with
  | Folder subs msgs => (flat_map walk_order subs ++ msgs)%list
  end.

(** The matcher as a predicate: the call returns [True]. *)
Definition matches (criteria : Criteria.t) (email : Email.t) : bool :=
  match email_matches_criteria email criteria with
  | Ok true => true
  | _ => false
  end.

(** [needle] is a case-insensitive substring of [hay]: some window of [hay]
    equals [needle] up to the case of the letters [A]-[Z].  On ASCII text
    this is case-insensitive containment; on other text it asks for the
    same bytes outside those letters, which every reading of
    case-insensitive grants. *)
Definition ci_substring (needle hay : string) : Prop :=
  exists pre w post,
    hay = (pre ++ w ++ post)%string /\ ascii_lower w = ascii_lower needle.

Definition is_digit (c : ascii) : bool := is_set (digit_val c).

(** An ISO-8601 timestamp of the shape [YYYY-MM-DDThh:mm:ss], optionally
    followed by [.ffffff]. *)
Definition iso8601_shape (s : string) : bool :=
  match s with
  | String y1 (String y2 (String y3 (String y4 (String h1
    (String m1 (String m2 (String h2 (String d1 (String d2 (String t
    (String H1 (String H2 (String c1 (String M1 (String M2 (String c2
    (String S1 (String S2 rest)))))))))))))))))) =>
    is_digit y1 && is_digit y2 && is_digit y3 && is_digit y4
    && Ascii.eqb h1 "-" && is_digit m1 && is_digit m2
    && Ascii.eqb h2 "-" && is_digit d1 && is_digit d2
    && Ascii.eqb t "T" && is_digit H1 && is_digit H2
    && Ascii.eqb c1 ":" && is_digit M1 && is_digit M2
    && Ascii.eqb c2 ":" && is_digit S1 && is_digit S2
    && match rest with
       | EmptyString => true
       | String dot (String f1 (String f2 (String f3 (String f4 (String f5
         (String f6 EmptyString)))))) =>
         Ascii.eqb dot "." && is_digit f1 && is_digit f2 && is_digit f3
         && is_digit f4 && is_digit f5 && is_digit f6
       | _ => false
       end
  | _ => false
  end.

(** An EmailRecord of the data model: its [delivery_time] is null or a
    timestamp string that parses. *)
Definition well_formed (email : Email.t) : bool :=
  match Email.delivery_time email with
  | None => true
  | Some iso => is_set (fromisoformat iso)
  end.

(** A criterion given as the empty string, replaced by an unset one. *)
Definition unset_if_empty (criterion : option string) : option string :=
  match criterion with
  | Some EmptyString => None
  | _ => criterion
  end.

(** Both bounds are set and [date_from > date_to]. *)
Definition inverted (criteria : Criteria.t) : bool :=
  match Criteria.date_from criteria, Criteria.date_to criteria with
  | Some a, Some b => dt_gtb a b
  | _, _ => false
  end.

(** The message whose [delivery_time] read behaves as [outcome]. *)
Definition with_delivery_time (message : Message.t)
  (outcome : result (option delivery_value)) : Message.t :=
  {| Message.subject := Message.subject message;
     Message.plain_text_body := Message.plain_text_body message;
     Message.html_body := Message.html_body message;
     Message.sender_name := Message.sender_name message;
     Message.display_to := Message.display_to message;
     Message.delivery_time := outcome |}.

Definition midnight (d : datetime) : Prop :=
  hour d = 0 /\ minute d = 0 /\ second d = 0 /\ microsecond d = 0.

Definition same_calendar_date (a b : datetime) : Prop :=
  year a = year b /\ month a = month b /\ day a = day b.

(** The year, month and day written in a string of the shape [YYYY-MM-DD]:
    four, two and two decimal digits separated by hyphens. *)
Definition parse_ymd (s : string) : option (Z * Z * Z) :=
  match s with
  | String y1 (String y2 (String y3 (String y4 (String h1
    (String m1 (String m2 (String h2 (String d1 (String d2 EmptyString)))))))))
    =>
    if Ascii.eqb h1 "-" && Ascii.eqb h2 "-" then
      match digit_val y1, digit_val y2, digit_val y3, digit_val y4,
            digit_val m1, digit_val m2, digit_val d1, digit_val d2 with
      | Some a, Some b, Some c, Some d, Some e, Some f, Some g, Some h =>
        Some (1000 * a + 100 * b + 10 * c + d, 10 * e + f, 10 * g + h)
      | _, _, _, _, _, _, _, _ => None
      end
    else None
  | _ => None
  end.

(** A well-formed [YYYY-MM-DD] date: a string of that shape that names a
    date of the calendar. *)
Definition well_formed_ymd (s : string) : bool :=
  match parse_ymd s with
  | Some (y, m, d) => valid_fields y m d 0 0 0 0
  | None => false
  end.

(** A date argument that was given on the command line and is not a
    well-formed date. *)
Definition malformed (arg : option string) : Prop :=
  exists s, arg = Some s /\ well_formed_ymd s = false.

(** A date argument that the driver tests and [strptime] rejects. *)
Definition rejected (arg : option string) : Prop :=
  exists s, arg = Some s /\ s <> "" /\ strptime s = None.

(** No event of the trace touches the archive. *)
Definition no_archive_access (tr : list event) : Prop :=
  Forall (fun e => archive_access e = false) tr.

(* ------------------------------------------------------------------ *)
(** * Concrete inputs used below *)

Definition text_message (subject : string) : Message.t :=
  {| Message.subject := Some subject;
     Message.plain_text_body := Some "hello";
     Message.html_body := None;
     Message.sender_name := Some "alice@co.com";
     Message.display_to := Some "bob@co.com";
     Message.delivery_time := Ok None |}.

Definition msg1 : Message.t := text_message "msg1".
Definition msg2 : Message.t := text_message "msg2".
Definition msg3 : Message.t := text_message "msg3".

(** The tree [A{msg1, msg2, subB{msg3}}]. *)
Definition subB : folder := Folder [] [msg3].
Definition folderA : folder := Folder [subB] [msg1; msg2].

Definition no_criteria : Criteria.t :=
  {| Criteria.date_from := None;
     Criteria.date_to := None;
     Criteria.from_address := None;
     Criteria.subject := None;
     Criteria.body := None |}.

Definition subject_criteria (needle : string) : Criteria.t :=
  {| Criteria.date_from := None;
     Criteria.date_to := None;
     Criteria.from_address := None;
     Criteria.subject := Some needle;
     Criteria.body := None |}.

Definition date_criteria (date_from date_to : option datetime) : Criteria.t :=
  {| Criteria.date_from := date_from;
     Criteria.date_to := date_to;
     Criteria.from_address := None;
     Criteria.subject := None;
     Criteria.body := None |}.

Definition email_at (iso : option string) : Email.t :=
  {| Email.subject := "Quarterly Report";
     Email.body := "figures attached";
     Email.from := "alice@co.com";
     Email.to := "bob@co.com";
     Email.delivery_time := iso |}.

Definition jan_1 : datetime := mk_datetime 2024 1 1 0 0 0 0 eq_refl.
Definition jun_1 : datetime := mk_datetime 2024 6 1 0 0 0 0 eq_refl.
Definition jun_1_noon : datetime := mk_datetime 2024 6 1 12 0 0 0 eq_refl.

Definition date_args (date_from date_to : option string) : Args.t :=
  {| Args.pst_path := "mail.pst";
     Args.date_from := date_from;
     Args.date_to := date_to;
     Args.from_address := None;
     Args.subject := None;
     Args.body := None;
     Args.output := "output.json" |}.

(** A world in which the archive exists, opens, and is empty. *)
Definition empty_archive : World :=
  {| isfile := fun _ => true;
     pst_open := fun _ => Ok (Folder [] []);
     json_dump := fun _ _ => Ok tt |}.


(* ------------------------------------------------------------------ *)
(** * Further notions *)

(** [m] is a message of the folder tree [f], at any depth. *)
Inductive in_folder (m : Message.t) : folder -> Prop :=
| in_folder_here subs msgs :
    In m msgs -> in_folder m (Folder subs msgs)
| in_folder_sub subs msgs sub :
    In sub subs -> in_folder m sub -> in_folder m (Folder subs msgs).

(** The criteria that keep one of the four checks of [criteria] and leave
    the others unset. *)
Definition only_dates (criteria : Criteria.t) : Criteria.t :=
  {| Criteria.date_from := Criteria.date_from criteria;
     Criteria.date_to := Criteria.date_to criteria;
     Criteria.from_address := None;
     Criteria.subject := None;
     Criteria.body := None |}.

Definition only_from_address (criteria : Criteria.t) : Criteria.t :=
  {| Criteria.date_from := None;
     Criteria.date_to := None;
     Criteria.from_address := Criteria.from_address criteria;
     Criteria.subject := None;
     Criteria.body := None |}.

Definition only_subject (criteria : Criteria.t) : Criteria.t :=
  {| Criteria.date_from := None;
     Criteria.date_to := None;
     Criteria.from_address := None;
     Criteria.subject := Criteria.subject criteria;
     Criteria.body := None |}.

Definition only_body (criteria : Criteria.t) : Criteria.t :=
  {| Criteria.date_from := None;
     Criteria.date_to := None;
     Criteria.from_address := None;
     Criteria.subject := None;
     Criteria.body := Criteria.body criteria |}.

(** No check of the matcher is active: no date bound is set and every text
    criterion is unset or empty. *)
Definition unconstrained (criteria : Criteria.t) : bool :=
  negb (is_set (Criteria.date_from criteria))
  && negb (is_set (Criteria.date_to criteria))
  && negb (truthy (Criteria.from_address criteria))
  && negb (truthy (Criteria.subject criteria))
  && negb (truthy (Criteria.body criteria)).

(** [loose] asks for nothing that [strict] does not ask for: each of its
    criteria is unset or is the one of [strict]. *)
Definition looser (loose strict : Criteria.t) : Prop :=
  (Criteria.date_from loose = None
   \/ Criteria.date_from loose = Criteria.date_from strict) /\
  (Criteria.date_to loose = None
   \/ Criteria.date_to loose = Criteria.date_to strict) /\
  (Criteria.from_address loose = None
   \/ Criteria.from_address loose = Criteria.from_address strict) /\
  (Criteria.subject loose = None
   \/ Criteria.subject loose = Criteria.subject strict) /\
  (Criteria.body loose = None
   \/ Criteria.body loose = Criteria.body strict).



(** The records that a run exports from the archive rooted at [root]. *)
Definition exported (root : folder) (criteria : Criteria.t) : list Email.t :=
  filter (matches criteria) (map extract_email_fields (walk_order root)).

(** The trace of a run up to the archive being read. *)
Definition opening (args : Args.t) : list event :=
  [IsFile (Args.pst_path args); PstOpen (Args.pst_path args); GetRootFolder].

(** Worlds: the archive is [root]; there is no file; the file does not open;
    the output cannot be written. *)
Definition archive_of (root : folder) : World :=
  {| isfile := fun _ => true;
     pst_open := fun _ => Ok root;
     json_dump := fun _ _ => Ok tt |}.

Definition no_file : World :=
  {| isfile := fun _ => false;
     pst_open := fun _ => Raise (IOError "unable to open file");
     json_dump := fun _ _ => Ok tt |}.

Definition not_a_pst : World :=
  {| isfile := fun _ => true;
     pst_open := fun _ => Raise (IOError "invalid file signature");
     json_dump := fun _ _ => Ok tt |}.

Definition read_only_output (root : folder) : World :=
  {| isfile := fun _ => true;
     pst_open := fun _ => Ok root;
     json_dump := fun _ _ => Raise (IOError "Permission denied") |}.

Definition timed_message (subject : string) (t : datetime) : Message.t :=
  {| Message.subject := Some subject;
     Message.plain_text_body := None;
     Message.html_body := Some "<p>see attachment</p>";
     Message.sender_name := Some "Alice";
     Message.display_to := None;
     Message.delivery_time := Ok (Some (Datetime t)) |}.

(* ------------------------------------------------------------------ *)
(** * [json.dump(emails, f, indent=4, ensure_ascii=False)]

    The text that the encoder of the library writes for the list of
    dictionaries built by [extract_email_fields]: keys in insertion order,
    an indentation of four spaces per level, [","] between items and [": "]
    after a key, [null] for [None], and strings between quotes with the
    quote, the backslash and the characters below [0x20] escaped and every
    other character written as it is. *)

Definition quote_char : ascii := "034".
Definition backslash_char : ascii := "092".
Definition newline_char : ascii := "010".

Definition hex_digit (n : nat) : ascii :=
  if (n <? 10)%nat then ascii_of_nat (48 + n) else ascii_of_nat (87 + n).

Definition escape_char (c : ascii) : string :=
  let n := nat_of_ascii c in
  if (n =? 92)%nat then String backslash_char (String backslash_char "")
  else if (n =? 34)%nat then String backslash_char (String quote_char "")
  else if (n =? 8)%nat then String backslash_char "b"
  else if (n =? 12)%nat then String backslash_char "f"
  else if (n =? 10)%nat then String backslash_char "n"
  else if (n =? 13)%nat then String backslash_char "r"
  else if (n =? 9)%nat then String backslash_char "t"
  else if (n <? 32)%nat then
    String backslash_char
      ("u00" ++ String (hex_digit (n / 16)) (String (hex_digit (n mod 16)) ""))
  else String c "".

Fixpoint escape (s : string) : string :=
  match s with
  | EmptyString => ""
  | String c r => escape_char c ++ escape r
  end.

Definition encode_basestring (s : string) : string :=
  String quote_char (escape s ++ String quote_char "").

(** A value that is [None] or a [str]. *)
Definition encode_value (v : option string) : string :=
  match v with
  | None => "null"
  | Some s => encode_basestring s
  end.

Fixpoint spaces (n : nat) : string :=
  match n with
  | O => ""
  | S n' => String " " (spaces n')
  end.

Definition newline_indent (level : nat) : string :=
  String newline_char (spaces (4 * level)).

(** One dictionary, as an item of the list (its items are at level 2). *)
Definition encode_email (email : Email.t) : string :=
  "{" ++ newline_indent 2
  ++ encode_basestring "subject" ++ ": "
  ++ encode_basestring (Email.subject email) ++ "," ++ newline_indent 2
  ++ encode_basestring "body" ++ ": "
  ++ encode_basestring (Email.body email) ++ "," ++ newline_indent 2
  ++ encode_basestring "from" ++ ": "
  ++ encode_basestring (Email.from email) ++ "," ++ newline_indent 2
  ++ encode_basestring "to" ++ ": "
  ++ encode_basestring (Email.to email) ++ "," ++ newline_indent 2
  ++ encode_basestring "delivery_time" ++ ": "
  ++ encode_value (Email.delivery_time email)
  ++ newline_indent 1 ++ "}".

Fixpoint encode_items (emails : list Email.t) : string :=
  match emails with
  | [] => ""
  | [email] => encode_email email
  | email :: rest =>
    encode_email email ++ "," ++ newline_indent 1 ++ encode_items rest
  end.

Definition json_dumps (emails : list Email.t) : string :=
  match emails with
  | [] => "[]"
  | _ :: _ =>
    "[" ++ newline_indent 1 ++ encode_items emails ++ newline_indent 0 ++ "]"
  end.

(** Reading back a string of the encoder, up to its closing quote: the
    content and what follows the quote.  It serves to show that the encoding
    loses nothing. *)
Definition hex_val (c : ascii) : option nat :=
  let n := nat_of_ascii c in
  if ((48 <=? n) && (n <=? 57))%nat then Some (n - 48)%nat
  else if ((97 <=? n) && (n <=? 102))%nat then Some (n - 87)%nat
  else None.

Definition unescape_letter (c : ascii) : option ascii :=
  let n := nat_of_ascii c in
  if (n =? 92)%nat then Some backslash_char
  else if (n =? 34)%nat then Some quote_char
  else if (n =? 98)%nat then Some (ascii_of_nat 8)
  else if (n =? 102)%nat then Some (ascii_of_nat 12)
  else if (n =? 110)%nat then Some (ascii_of_nat 10)
  else if (n =? 114)%nat then Some (ascii_of_nat 13)
  else if (n =? 116)%nat then Some (ascii_of_nat 9)
  else None.

Fixpoint read_string_body (s : string) : option (string * string) :=
  match s with
  | EmptyString => None
  | String c r =>
    if Ascii.eqb c quote_char then Some ("", r)
    else if Ascii.eqb c backslash_char then
      match r with
      | EmptyString => None
      | String e r' =>
        if Ascii.eqb e "u" then
          match r' with
          | String _ (String _ (String h1 (String h2 r''))) =>
            a <-? hex_val h1 ;;
            b <-? hex_val h2 ;;
            '(t, rest) <-? read_string_body r'' ;;
            Some (String (ascii_of_nat (16 * a + b)) t, rest)
          | _ => None
          end
        else
          c' <-? unescape_letter e ;;
          '(t, rest) <-? read_string_body r' ;;
          Some (String c' t, rest)
      end
    else
      '(t, rest) <-? read_string_body r ;;
      Some (String c t, rest)
  end.

(* ------------------------------------------------------------------ *)
(** * The command line *)

(** What [parse_arguments] (line 90) makes of the command line: it returns
    the namespace, or [argparse] prints the usage with an error and exits
    with status 2, or prints the help and exits with status 0. *)
Inductive parsed :=
| Namespace (args : Args.t)
| Usage_error (text : string)
| Help (text : string).

(** The script from its first line. *)
Definition script (w : World) (command_line : parsed) : list event * Z :=
  match command_line with
  | Namespace args => run w args
  | Usage_error text => ([Print text], 2)
  | Help text => ([Print text], 0)
  end.

(* ------------------------------------------------------------------ *)
(** * Further concrete inputs *)



Definition mar_1_precise : datetime :=
  mk_datetime 2024 3 1 9 5 7 123 eq_refl.

(* ------------------------------------------------------------------ *)
(** * Proof automation *)

(** Closes a goal about two decimal digits by running through their values;
    [D1] and [D2] are the facts that each is one of [0] to [9]. *)
Ltac by_digit_cases D1 D2 :=
  let C1 := fresh in let C2 := fresh in
  pose proof D1 as C1;
  pose proof D2 as C2;
  repeat (destruct C1 as [-> | C1]; [| try subst]);
  repeat (destruct C2 as [-> | C2]; [| try subst]);
  reflexivity.


(* ------------------------------------------------------------------ *)
(** * Strings: [in] and [lower] *)

Lemma startswith_spec (needle hay : string) :
  startswith needle hay = true <-> exists post, hay = needle ++ post.
Proof.
  revert hay; induction needle as [|a n IH]; intros hay; simpl.
  - split; [intros _; exists hay; reflexivity | reflexivity].
  - destruct hay as [|b h].
    + split; [discriminate | intros [post H]; discriminate].
    + rewrite andb_true_iff, Ascii.eqb_eq, IH. split.
      * intros [-> [post ->]]. exists post; reflexivity.
      * intros [post H]. injection H as -> ->. split; [reflexivity | eauto].
Qed.

Lemma contains_spec (needle hay : string) :
  contains needle hay = true <->
  exists pre post, hay = pre ++ needle ++ post.
Proof.
  induction hay as [|b h IH].
  - simpl. rewrite orb_false_r, startswith_spec. split.
    + intros [post H]. exists "", post. exact H.
    + intros [pre [post H]]. destruct pre; [eauto | discriminate].
  - cbn [contains]. rewrite orb_true_iff, startswith_spec, IH. split.
    + intros [[post H] | [pre [post H]]].
      * exists "", post. exact H.
      * exists (String b pre), post. simpl. now rewrite H.
    + intros [pre [post H]]. destruct pre as [|c pre].
      * left. exists post. exact H.
      * right. simpl in H. injection H as -> ->. eauto.
Qed.

Lemma ascii_lower_app (a b : string) :
  ascii_lower (a ++ b) = ascii_lower a ++ ascii_lower b.
Proof.
  induction a as [|c a IH]; simpl; [reflexivity | now rewrite IH].
Qed.

Lemma ascii_lower_split (h p q : string) :
  ascii_lower h = p ++ q ->
  exists a b, h = a ++ b /\ ascii_lower a = p /\ ascii_lower b = q.
Proof.
  revert h; induction p as [|c p IH]; intros h H.
  - exists "", h. auto.
  - destruct h as [|x h]; [discriminate |].
    simpl in H. injection H as Hc Hr.
    destruct (IH _ Hr) as [a [b [-> [Ha Hb]]]].
    exists (String x a), b. simpl. now rewrite Hc, Ha, Hb.
Qed.

Lemma ci_substring_iff (needle hay : string) :
  ci_substring needle hay
  <-> contains (ascii_lower needle) (ascii_lower hay) = true.
Proof.
  rewrite contains_spec. split.
  - intros [pre [w [post [-> Hw]]]].
    exists (ascii_lower pre), (ascii_lower post).
    now rewrite !ascii_lower_app, Hw.
  - intros [p [q H]].
    destruct (ascii_lower_split _ _ _ H) as [pre [rest [-> [Hp Hr]]]].
    destruct (ascii_lower_split _ _ _ Hr) as [w [post [-> [Hw Hq]]]].
    exists pre, w, post. auto.
Qed.

(** On an ASCII text [lower] folds the letters [A]-[Z]. *)
Lemma lower_ascii (s : string) : is_ascii s = true -> lower s = ascii_lower s.
Proof. intros H. unfold lower. now rewrite H. Qed.

Lemma lacks_unset_if_empty (criterion : option string) (field : string) :
  lacks (unset_if_empty criterion) field = lacks criterion field.
Proof.
  destruct criterion as [[|c s]|]; reflexivity.
Qed.

Lemma lacks_ci_substring (needle field : string) :
  needle <> "" ->
  is_ascii needle = true ->
  is_ascii field = true ->
  lacks (Some needle) field = false <-> ci_substring needle field.
Proof.
  intros Hne Hn Hf. rewrite ci_substring_iff. unfold lacks.
  rewrite (lower_ascii _ Hn), (lower_ascii _ Hf).
  destruct needle as [|c s]; [congruence |]. cbn [str_truthy andb].
  now rewrite negb_false_iff.
Qed.

(* ------------------------------------------------------------------ *)
(** * UTF-8 *)



Lemma byte_code (b : ascii) : byte (code b) = b.
Proof.
  unfold code, byte. now rewrite Nat2Z.id, ascii_nat_embedding.
Qed.



Lemma utf8_encode_point_truthy (c : Z) (r : string) :
  str_truthy (utf8_encode_point c ++ r) = true.
Proof.
  unfold utf8_encode_point.
  destruct (c <? 128); [reflexivity |].
  destruct (c <? 2048); [reflexivity |].
  destruct (c <? 65536); reflexivity.
Qed.


Lemma utf8_decode_unfold (s : string) :
  utf8_decode s
  = if str_truthy s
    then '(c, r) <-? utf8_first s ;; l <-? utf8_decode r ;; Some (c :: l)
    else Some [].
Proof.
  destruct s as [|b0 r0]; [reflexivity |].
  cbn [utf8_decode utf8_first str_truthy].
  destruct (code b0 <? 128); [reflexivity |].
  destruct (code b0 <? 194); [reflexivity |].
  destruct (code b0 <? 224).
  { destruct r0 as [|b1 r1]; [reflexivity |].
    destruct (continuation b1); [| reflexivity]. cbn [obind].
    destruct (point2 _ _); reflexivity. }
  destruct (code b0 <? 240).
  { destruct r0 as [|b1 [|b2 r2]]; try reflexivity.
    destruct (continuation b1); [| reflexivity].
    destruct (continuation b2); [| reflexivity]. cbn [obind].
    destruct (point3 _ _ _); reflexivity. }
  destruct (code b0 <? 245); [| reflexivity].
  destruct r0 as [|b1 [|b2 [|b3 r3]]]; try reflexivity.
  destruct (continuation b1); [| reflexivity].
  destruct (continuation b2); [| reflexivity].
  destruct (continuation b3); [| reflexivity]. cbn [obind].
  destruct (point4 _ _ _ _); reflexivity.
Qed.





Lemma utf8_decode_nonempty (s : string) (points : list Z) :
  str_truthy s = true -> utf8_decode s = Some points -> points <> [].
Proof.
  intros Hs. rewrite utf8_decode_unfold, Hs.
  destruct (utf8_first s) as [[c r]|]; [| discriminate]. cbn [obind].
  destruct (utf8_decode r); [| discriminate]. cbn [obind].
  intros [= <-]. discriminate.
Qed.

(* ------------------------------------------------------------------ *)
(** * [lower] *)







Lemma lower_from_nonempty (before points : list Z) :
  points <> [] -> lower_from before points <> [].
Proof.
  destruct points as [|c l]; [congruence |]. intros _. cbn [lower_from].
  destruct (c =? capital_sigma); [discriminate |].
  unfold to_lower_full. destruct (c =? 0x130); [discriminate |].
  destruct (find_run c lower_runs); discriminate.
Qed.










Lemma str_truthy_lower (s : string) : str_truthy (lower s) = str_truthy s.
Proof.
  unfold lower. destruct (is_ascii s) eqn:Ha.
  { destruct s; reflexivity. }
  destruct s as [|b r]; [discriminate Ha |].
  destruct (utf8_decode (String b r)) as [points|] eqn:Hd; [| reflexivity].
  pose proof (utf8_decode_nonempty (String b r) points eq_refl Hd) as Hne.
  apply (lower_from_nonempty []) in Hne. fold (lower_points points) in Hne.
  destruct (lower_points points) as [|c l]; [congruence |].
  cbn [utf8_encode]. apply utf8_encode_point_truthy.
Qed.

(** [lower] on texts of several scripts: ASCII; the capital sigma at the
    end of a word, alone, before a letter, before an apostrophe, and between
    an apostrophe and a full stop followed by a letter; the capital I with a
    dot above, which becomes two code points; the sharp s in both cases;
    Cyrillic and Latin-1 letters; a Deseret letter outside the basic plane;
    a Roman numeral; a title-case digraph; the Kelvin sign; ideographs. *)
Remark lower_examples :
  lower "Hello World" = "hello world" /\
  lower (utf8_encode [0x41; 0x3A3]) = utf8_encode [0x61; 0x3C2] /\
  lower (utf8_encode [0x3A3]) = utf8_encode [0x3C3] /\
  lower (utf8_encode [0x3A3; 0x391]) = utf8_encode [0x3C3; 0x3B1] /\
  lower (utf8_encode [0x41; 0x3A3; 0x27]) = utf8_encode [0x61; 0x3C2; 0x27] /\
  lower (utf8_encode [0x41; 0x3A3; 0x42]) = utf8_encode [0x61; 0x3C3; 0x62] /\
  lower (utf8_encode [0x41; 0x27; 0x3A3; 0x2E; 0x42])
  = utf8_encode [0x61; 0x27; 0x3C3; 0x2E; 0x62] /\
  lower (utf8_encode [0x130]) = utf8_encode [0x69; 0x307] /\
  lower (utf8_encode [0xDF]) = utf8_encode [0xDF] /\
  lower (utf8_encode [0x1E9E]) = utf8_encode [0xDF] /\
  lower (utf8_encode [0x416; 0xC9]) = utf8_encode [0x436; 0xE9] /\
  lower (utf8_encode [0x10400]) = utf8_encode [0x10428] /\
  lower (utf8_encode [0x2167]) = utf8_encode [0x2177] /\
  lower (utf8_encode [0x1C5]) = utf8_encode [0x1C6] /\
  lower (utf8_encode [0x212A]) = "k" /\
  lower (utf8_encode [0x4E2D; 0x6587; 0x41])
  = utf8_encode [0x4E2D; 0x6587; 0x61].
Proof. repeat split; vm_compute; reflexivity. Qed.

(* ------------------------------------------------------------------ *)
(** * Datetimes: equality, order, rendering and parsing *)

Lemma make_datetime_valid (y mo d h mi s us : Z)
  (H : valid_fields y mo d h mi s us = true) :
  make_datetime y mo d h mi s us = Some (mk_datetime y mo d h mi s us H).
Proof.
  unfold make_datetime.
  generalize (eq_refl (valid_fields y mo d h mi s us)).
  generalize (valid_fields y mo d h mi s us) at 2 3.
  intros [] e.
  - do 2 f_equal. apply UIP_dec, bool_dec.
  - congruence.
Qed.

Lemma make_datetime_fields (y mo d h mi s us : Z) (t : datetime) :
  make_datetime y mo d h mi s us = Some t ->
  year t = y /\ month t = mo /\ day t = d /\ hour t = h /\ minute t = mi /\
  second t = s /\ microsecond t = us.
Proof.
  destruct (valid_fields y mo d h mi s us) eqn:E.
  - rewrite (make_datetime_valid _ _ _ _ _ _ _ E).
    intros [= <-]. simpl. repeat split.
  - unfold make_datetime.
    generalize (eq_refl (valid_fields y mo d h mi s us)).
    generalize (valid_fields y mo d h mi s us) at 2 3.
    intros [] e; congruence.
Qed.

Lemma make_datetime_of (t : datetime) :
  make_datetime (year t) (month t) (day t) (hour t) (minute t) (second t)
                (microsecond t) = Some t.
Proof.
  destruct t as [y mo d h mi s us H]. simpl. apply make_datetime_valid.
Qed.

Lemma days_in_month_le (y m : Z) : 28 <= days_in_month y m <= 31.
Proof.
  unfold days_in_month.
  destruct (m =? 2); [destruct (is_leap y); lia |].
  destruct ((m =? 4) || (m =? 6) || (m =? 9) || (m =? 11)); lia.
Qed.

Lemma datetime_bounds (t : datetime) :
  1 <= year t <= 9999 /\ 1 <= month t <= 12 /\ 1 <= day t <= 31 /\
  0 <= hour t <= 23 /\ 0 <= minute t <= 59 /\ 0 <= second t <= 59 /\
  0 <= microsecond t <= 999999.
Proof.
  destruct t as [y mo d h mi s us H]. simpl.
  unfold valid_fields in H.
  repeat (apply andb_prop in H; destruct H as [H ?]).
  pose proof (days_in_month_le y mo). lia.
Qed.

Lemma dt_compare_key (a b : datetime) :
  dt_compare a b = (dt_key a ?= dt_key b).
Proof.
  pose proof (datetime_bounds a). pose proof (datetime_bounds b).
  unfold dt_compare, dt_key, cmp_then.
  repeat match goal with
         | |- context [?x ?= ?y] =>
           lazymatch x with
           | context [Z.mul] => fail
           | _ => destruct (Z.compare_spec x y)
           end
         end;
    symmetry;
    first [ apply Z.compare_eq_iff | apply Z.compare_lt_iff
          | apply Z.compare_gt_iff ]; lia.
Qed.

Lemma dt_ltb_key (a b : datetime) : dt_ltb a b = (dt_key a <? dt_key b).
Proof. unfold dt_ltb, Z.ltb. now rewrite dt_compare_key. Qed.

Lemma dt_gtb_key (a b : datetime) : dt_gtb a b = (dt_key b <? dt_key a).
Proof.
  unfold dt_gtb. rewrite dt_compare_key, Z.ltb_antisym, Z.leb_compare.
  destruct (dt_key a ?= dt_key b); reflexivity.
Qed.

Lemma digit_val_digit_char (d : Z) :
  0 <= d <= 9 -> digit_val (digit_char d) = Some d.
Proof.
  intros H.
  assert (d = 0 \/ d = 1 \/ d = 2 \/ d = 3 \/ d = 4 \/ d = 5 \/ d = 6 \/
          d = 7 \/ d = 8 \/ d = 9) as Hd by lia.
  repeat (destruct Hd as [-> | Hd]; [reflexivity |]). subst. reflexivity.
Qed.

Lemma take_digits_from_zfill (k : nat) (acc n : Z) (rest : string) :
  take_digits_from k acc (zfill k n ++ rest)
  = Some (acc * 10 ^ Z.of_nat k + n mod 10 ^ Z.of_nat k, rest).
Proof.
  revert acc; induction k as [|k IH]; intros acc.
  - simpl. rewrite Z.mod_1_r. do 2 f_equal. lia.
  - cbn [zfill append take_digits_from].
    rewrite digit_val_digit_char
      by (pose proof (Z.mod_pos_bound (n / 10 ^ Z.of_nat k) 10); lia).
    cbn [obind]. rewrite IH. do 2 f_equal.
    rewrite Nat2Z.inj_succ, Z.pow_succ_r by lia.
    rewrite (Z.mul_comm 10 (10 ^ Z.of_nat k)).
    rewrite Z.rem_mul_r by lia. lia.
Qed.

Lemma take_digits_zfill (k : nat) (n : Z) (rest : string) :
  0 <= n < 10 ^ Z.of_nat k ->
  take_digits k (zfill k n ++ rest) = Some (n, rest).
Proof.
  intros H. unfold take_digits. rewrite take_digits_from_zfill.
  now rewrite Z.mod_small.
Qed.

Lemma append_assoc (a b c : string) : (a ++ b) ++ c = a ++ (b ++ c).
Proof. induction a; simpl; congruence. Qed.

Lemma append_empty_r (a : string) : a ++ "" = a.
Proof. induction a; simpl; congruence. Qed.

Lemma take_digits_zfill_end (k : nat) (n : Z) :
  0 <= n < 10 ^ Z.of_nat k ->
  take_digits k (zfill k n) = Some (n, "").
Proof.
  intros H. rewrite <- (append_empty_r (zfill k n)).
  now apply take_digits_zfill.
Qed.

(** Parsing what [isoformat] rendered gives the datetime back. *)
Lemma fromisoformat_isoformat (t : datetime) :
  fromisoformat (isoformat t) = Some t.
Proof.
  pose proof (datetime_bounds t) as B.
  unfold fromisoformat, isoformat.
  repeat first
    [ rewrite take_digits_zfill by (simpl; lia); cbn [obind]
    | rewrite append_assoc
    | progress cbn [append expect Ascii.eqb Bool.eqb obind] ].
  destruct (microsecond t =? 0) eqn:E.
  - apply Z.eqb_eq in E. cbn [append]. rewrite <- E. apply make_datetime_of.
  - cbn [append Ascii.eqb Bool.eqb].
    rewrite take_digits_zfill_end by (simpl; lia). cbn [obind].
    apply make_datetime_of.
Qed.

(** A string that parses is not empty. *)
Lemma fromisoformat_truthy (iso : string) (t : datetime) :
  fromisoformat iso = Some t -> truthy (Some iso) = true.
Proof. destruct iso; [discriminate | reflexivity]. Qed.

(* ------------------------------------------------------------------ *)
(** * The extractor and the matcher *)

Lemma extract_delivery_time (message : Message.t) :
  Email.delivery_time (extract_email_fields message)
  = match Message.delivery_time message with
    | Ok (Some (Datetime d)) => Some (isoformat d)
    | _ => None
    end.
Proof.
  unfold extract_email_fields, delivery_time_attempt; simpl.
  destruct (Message.delivery_time message) as [[[d|[]]|]|e]; reflexivity.
Qed.

Lemma extract_well_formed (message : Message.t) :
  well_formed (extract_email_fields message) = true.
Proof.
  unfold well_formed. rewrite extract_delivery_time.
  destruct (Message.delivery_time message) as [[[d|b]|]|e]; try reflexivity.
  now rewrite fromisoformat_isoformat.
Qed.

(** On a record of the data model the matcher does not raise. *)
Lemma date_range_check_well_formed (email : Email.t) (criteria : Criteria.t) :
  well_formed email = true ->
  exists b, date_range_check email criteria = Ok b.
Proof.
  unfold well_formed, date_range_check. intros H.
  destruct (is_set (Criteria.date_from criteria)
            || is_set (Criteria.date_to criteria)); [| eauto].
  destruct (Email.delivery_time email) as [iso|]; [| simpl; eauto].
  destruct (negb (truthy (Some iso))); [eauto |].
  destruct (fromisoformat iso) as [t|]; [| discriminate].
  destruct (before t _); [eauto |]. destruct (after t _); eauto.
Qed.

Lemma matches_well_formed (email : Email.t) (criteria : Criteria.t) :
  well_formed email = true ->
  email_matches_criteria email criteria = Ok (matches criteria email).
Proof.
  intros H. unfold matches.
  assert (exists b, email_matches_criteria email criteria = Ok b) as [b ->].
  { unfold email_matches_criteria.
    destruct (date_range_check_well_formed email criteria H) as [b ->].
    cbn [bind].
    repeat match goal with
           | |- context [if ?c then _ else _] => destruct c
           end; eauto. }
  destruct b; reflexivity.
Qed.

(** The matcher never answers [True] against an inverted range. *)
Lemma date_range_check_inverted (email : Email.t) (criteria : Criteria.t) :
  inverted criteria = true ->
  date_range_check email criteria <> Ok true.
Proof.
  unfold inverted, date_range_check. intros H.
  destruct (Criteria.date_from criteria) as [a|]; [| discriminate].
  destruct (Criteria.date_to criteria) as [b|]; [| discriminate].
  cbn [is_set orb].
  destruct (negb (truthy (Email.delivery_time email))); [discriminate |].
  destruct (Email.delivery_time email) as [iso|]; [| discriminate].
  destruct (fromisoformat iso) as [t|]; [| discriminate].
  cbn [before after].
  rewrite dt_gtb_key in H. rewrite dt_ltb_key, dt_gtb_key.
  destruct (Z.ltb_spec (dt_key t) (dt_key a)); [discriminate |].
  destruct (Z.ltb_spec (dt_key b) (dt_key t)); [discriminate |].
  apply Z.ltb_lt in H. lia.
Qed.

(* ------------------------------------------------------------------ *)
(** * The folder walk *)

Lemma folder_induction (P : folder -> Prop) :
  (forall subs msgs, Forall P subs -> P (Folder subs msgs)) ->
  forall f, P f.
Proof.
  intros step. fix IH 1. intros [subs msgs]. apply step.
  induction subs as [|sub subs IHsubs]; constructor; [apply IH | exact IHsubs].
Qed.

(** A loop over the indices of a list that fetches each element is the loop
    over the list. *)
Lemma for_each_index {A T} (body : A -> T -> result T)
  (fetch : nat -> result A) (l : list A) (start : nat) (s : T) :
  (forall i x, nth_error l i = Some x -> fetch (start + i)%nat = Ok x) ->
  for_each (fun i s => x <- fetch i ;; body x s) (seq start (List.length l)) s
  = for_each body l s.
Proof.
  revert start s; induction l as [|x l IH]; intros start s Hfetch;
    simpl; [reflexivity |].
  rewrite <- (Nat.add_0_r start) at 1. rewrite (Hfetch 0%nat x eq_refl).
  cbn [bind]. destruct (body x s) as [s'|e]; cbn [bind]; [| reflexivity].
  apply IH. intros i y Hi.
  replace (S start + i)%nat with (start + S i)%nat by lia.
  now apply Hfetch.
Qed.

Lemma sub_loop_for_each (criteria : Criteria.t) (subs : list folder)
  (emails : list Email.t) :
  (fix sub_loop (subs : list folder) (emails : list Email.t) :=
     match subs with
     | [] => Ok emails
     | sub_folder :: rest =>
       emails <- get_folder_emails sub_folder criteria emails ;;
       sub_loop rest emails
     end) subs emails
  = for_each (fun sub emails => get_folder_emails sub criteria emails)
             subs emails.
Proof.
  revert emails; induction subs as [|sub subs IH]; intros emails;
    [reflexivity |].
  cbn [for_each]. destruct (get_folder_emails sub criteria emails);
    cbn [bind]; [apply IH | reflexivity].
Qed.

(** [get_folder_emails] satisfies the equation that the source reads as:
    a loop over the indices of the sub-folders that recurses into each,
    then a loop over the indices of the messages. *)
Lemma get_folder_emails_unfold (f : folder) (criteria : Criteria.t)
  (emails : list Email.t) :
  get_folder_emails f criteria emails
  = (emails <-
       for_range (number_of_sub_folders f)
         (fun i emails =>
            sub_folder <- get_sub_folder f i ;;
            get_folder_emails sub_folder criteria emails) emails ;;
     for_range (number_of_messages f)
       (fun i emails =>
          message <- get_message f i ;;
          visit_message criteria message emails) emails).
Proof.
  destruct f as [subs msgs].
  unfold for_range, number_of_sub_folders, number_of_messages.
  cbn [get_folder_emails sub_folders messages].
  rewrite sub_loop_for_each.
  rewrite (for_each_index _ (get_sub_folder (Folder subs msgs)) subs 0).
  2: { intros i x Hi. unfold get_sub_folder. simpl. now rewrite Hi. }
  destruct (for_each _ subs emails) as [emails'|e]; cbn [bind];
    [| reflexivity].
  rewrite (for_each_index _ (get_message (Folder subs msgs)) msgs 0);
    [reflexivity |].
  intros i x Hi. unfold get_message. simpl. now rewrite Hi.
Qed.

Lemma visit_messages (criteria : Criteria.t) (msgs : list Message.t)
  (emails : list Email.t) :
  for_each (visit_message criteria) msgs emails
  = Ok (emails ++ filter (matches criteria)
                         (map extract_email_fields msgs))%list.
Proof.
  revert emails; induction msgs as [|m msgs IH]; intros emails; simpl.
  - now rewrite app_nil_r.
  - unfold visit_message at 1.
    rewrite (matches_well_formed _ _ (extract_well_formed m)). cbn [bind].
    destruct (matches criteria (extract_email_fields m)); cbn [bind];
      rewrite IH; [now rewrite <- app_assoc | reflexivity].
Qed.

Lemma get_folder_emails_walk (f : folder) (criteria : Criteria.t) :
  forall emails,
    get_folder_emails f criteria emails
    = Ok (emails ++ filter (matches criteria)
                           (map extract_email_fields (walk_order f)))%list.
Proof.
  induction f as [subs msgs IH] using folder_induction. intros emails.
  cbn [get_folder_emails walk_order]. rewrite sub_loop_for_each.
  assert (forall acc,
    for_each (fun sub acc => get_folder_emails sub criteria acc) subs acc
    = Ok (acc ++ filter (matches criteria)
            (map extract_email_fields (flat_map walk_order subs)))%list)
    as Hsubs.
  { induction IH as [|sub subs Hsub _ IHsubs]; intros acc; simpl.
    - now rewrite app_nil_r.
    - rewrite Hsub. cbn [bind]. rewrite IHsubs.
      now rewrite map_app, filter_app, app_assoc. }
  rewrite Hsubs. cbn [bind]. rewrite visit_messages.
  now rewrite map_app, filter_app, app_assoc.
Qed.

(* ------------------------------------------------------------------ *)
(** * Properties of the folder walk *)

(** C1, as the specification states it, fails: on the tree
    [A{msg1, msg2, subB{msg3}}] with criteria that match every message, the
    walk does not produce [[msg1, msg2, msg3]]. *)
Lemma folderA_order_counterexample :
  matches no_criteria (extract_email_fields msg1) = true /\
  matches no_criteria (extract_email_fields msg2) = true /\
  matches no_criteria (extract_email_fields msg3) = true /\
  get_folder_emails folderA no_criteria []
  <> Ok [extract_email_fields msg1; extract_email_fields msg2;
         extract_email_fields msg3].
Proof.
  split; [reflexivity |]. split; [reflexivity |]. split; [reflexivity |].
  vm_compute. intros H. discriminate H.
Qed.

(** C1, amended: on a tree [A{m1, m2, subB{m3}}] whose three messages all
    match the criteria, the walk produces the records of [m3], [m1], [m2] in
    this order: the sub-folder's message comes first. *)
Theorem folder_tree_order (m1 m2 m3 : Message.t) (criteria : Criteria.t) :
  matches criteria (extract_email_fields m1) = true ->
  matches criteria (extract_email_fields m2) = true ->
  matches criteria (extract_email_fields m3) = true ->
  get_folder_emails (Folder [Folder [] [m3]] [m1; m2]) criteria []
  = Ok [extract_email_fields m3; extract_email_fields m1;
        extract_email_fields m2].
Proof.
  intros H1 H2 H3. rewrite get_folder_emails_walk.
  cbn [walk_order flat_map app map filter]. now rewrite H3, H1, H2.
Qed.

Lemma folder_tree_order_witness :
  matches no_criteria (extract_email_fields msg1) = true /\
  matches no_criteria (extract_email_fields msg2) = true /\
  matches no_criteria (extract_email_fields msg3) = true /\
  get_folder_emails folderA no_criteria []
  = Ok [extract_email_fields msg3; extract_email_fields msg1;
        extract_email_fields msg2].
Proof.
  split; [reflexivity |]. split; [reflexivity |]. split; [reflexivity |].
  apply (folder_tree_order msg1 msg2 msg3 no_criteria); reflexivity.
Defined.

(** C2: on every folder tree and criteria the walk is the source's two
    index loops (first a recursive call on each sub-folder in index order,
    then extractor and matcher on each message in index order, all on the
    one accumulator), and it returns the accumulator followed by exactly the
    matching records, in the order in which that traversal reaches their
    messages. *)
Theorem get_folder_emails_traversal (f : folder) (criteria : Criteria.t)
  (emails : list Email.t) :
  get_folder_emails f criteria emails
  = (emails <-
       for_range (number_of_sub_folders f)
         (fun i emails =>
            sub_folder <- get_sub_folder f i ;;
            get_folder_emails sub_folder criteria emails) emails ;;
     for_range (number_of_messages f)
       (fun i emails =>
          message <- get_message f i ;;
          let email := extract_email_fields message in
          matched <- email_matches_criteria email criteria ;;
          if matched then Ok (emails ++ [email])%list else Ok emails) emails)
  /\
  get_folder_emails f criteria emails
  = Ok (emails ++ filter (matches criteria)
                         (map extract_email_fields (walk_order f)))%list.
Proof.
  split; [apply get_folder_emails_unfold | apply get_folder_emails_walk].
Qed.

(* ------------------------------------------------------------------ *)
(** * Properties of the matcher *)




(** C4, as the specification states it, fails: a record delivered exactly
    at [date_from] does not pass the date check when [date_to] is set to an
    earlier instant. *)
Lemma date_bounds_inclusive_counterexample :
  ~ (forall (email : Email.t) (criteria : Criteria.t) (iso : string)
            (t : datetime),
        Email.delivery_time email = Some iso ->
        fromisoformat iso = Some t ->
        Criteria.date_from criteria = Some t
        \/ Criteria.date_to criteria = Some t ->
        date_range_check email criteria = Ok true).
Proof.
  intros claim.
  specialize (claim (email_at (Some "2024-06-01T00:00:00"))
                    (date_criteria (Some jun_1) (Some jan_1))
                    "2024-06-01T00:00:00" jun_1
                    eq_refl eq_refl (or_introl eq_refl)).
  vm_compute in claim. discriminate claim.
Qed.

(** C4, amended: when the range is not inverted, a record whose delivery
    timestamp is exactly [date_from] or exactly [date_to] passes the date
    check, and matches when no other criterion is set. *)
Theorem date_bounds_inclusive (email : Email.t) (criteria : Criteria.t)
  (iso : string) (t : datetime) :
  Email.delivery_time email = Some iso ->
  fromisoformat iso = Some t ->
  inverted criteria = false ->
  Criteria.date_from criteria = Some t \/ Criteria.date_to criteria = Some t ->
  date_range_check email criteria = Ok true /\
  (Criteria.from_address criteria = None ->
   Criteria.subject criteria = None ->
   Criteria.body criteria = None ->
   email_matches_criteria email criteria = Ok true).
Proof.
  intros Hiso Ht Hinv Hbound.
  assert (date_range_check email criteria = Ok true) as Hcheck.
  { unfold date_range_check, inverted in *.
    rewrite Hiso, (fromisoformat_truthy _ _ Ht), Ht. cbn [negb].
    destruct Hbound as [Hb | Hb]; rewrite Hb in *; cbn [is_set orb before after].
    - rewrite dt_ltb_key, Z.ltb_irrefl.
      destruct (Criteria.date_to criteria) as [b|]; cbn [after];
        [rewrite Hinv |]; reflexivity.
    - rewrite orb_true_r, (dt_gtb_key t t), Z.ltb_irrefl.
      destruct (Criteria.date_from criteria) as [a|]; cbn [before];
        [| reflexivity].
      rewrite dt_gtb_key in Hinv. rewrite dt_ltb_key.
      apply Z.ltb_ge in Hinv.
      destruct (Z.ltb_spec (dt_key t) (dt_key a)); [lia | reflexivity]. }
  split; [exact Hcheck |].
  intros Ha Hs Hb. unfold email_matches_criteria.
  now rewrite Hcheck, Ha, Hs, Hb.
Qed.

Lemma date_bounds_inclusive_witness :
  email_matches_criteria (email_at (Some "2024-06-01T00:00:00"))
                         (date_criteria (Some jan_1) (Some jun_1)) = Ok true.
Proof.
  apply (date_bounds_inclusive (email_at (Some "2024-06-01T00:00:00"))
           (date_criteria (Some jan_1) (Some jun_1))
           "2024-06-01T00:00:00" jun_1);
    first [reflexivity | right; reflexivity].
Defined.

(** C5: a record whose [delivery_time] is null matches no criteria in which
    a date bound is set, whatever its other fields and the other criteria. *)
Theorem null_delivery_time_never_matches (email : Email.t)
  (criteria : Criteria.t) :
  Email.delivery_time email = None ->
  is_set (Criteria.date_from criteria) || is_set (Criteria.date_to criteria)
  = true ->
  email_matches_criteria email criteria = Ok false.
Proof.
  intros Hnull Hset. unfold email_matches_criteria, date_range_check.
  now rewrite Hset, Hnull.
Qed.

Lemma null_delivery_time_never_matches_witness :
  email_matches_criteria (email_at None) (date_criteria None (Some jun_1))
  = Ok false.
Proof.
  apply (null_delivery_time_never_matches (email_at None)
           (date_criteria None (Some jun_1))); reflexivity.
Defined.

(** C6: replacing a criterion that is the empty string by an unset one does
    not change the answer of the matcher, for each of the three text
    criteria; and criteria whose fields are all unset or empty strings match
    every record. *)
Theorem empty_criterion_is_unset (email : Email.t)
  (date_from date_to : option datetime) (from_address subject body : option string) :
  email_matches_criteria email
    (Criteria.mk date_from date_to (unset_if_empty from_address) subject body)
  = email_matches_criteria email
      (Criteria.mk date_from date_to from_address subject body)
  /\
  email_matches_criteria email
    (Criteria.mk date_from date_to from_address (unset_if_empty subject) body)
  = email_matches_criteria email
      (Criteria.mk date_from date_to from_address subject body)
  /\
  email_matches_criteria email
    (Criteria.mk date_from date_to from_address subject (unset_if_empty body))
  = email_matches_criteria email
      (Criteria.mk date_from date_to from_address subject body)
  /\
  (date_from = None -> date_to = None ->
   from_address = None \/ from_address = Some "" ->
   subject = None \/ subject = Some "" ->
   body = None \/ body = Some "" ->
   email_matches_criteria email
     (Criteria.mk date_from date_to from_address subject body) = Ok true).
Proof.
  unfold email_matches_criteria, date_range_check; cbn [Criteria.date_from
    Criteria.date_to Criteria.from_address Criteria.subject Criteria.body].
  rewrite !lacks_unset_if_empty.
  split; [reflexivity |]. split; [reflexivity |]. split; [reflexivity |].
  intros -> -> [-> | ->] [-> | ->] [-> | ->]; reflexivity.
Qed.

Lemma empty_criterion_is_unset_witness :
  email_matches_criteria (email_at None)
    (Criteria.mk None None (Some "") None (Some "")) = Ok true.
Proof.
  apply (empty_criterion_is_unset (email_at None) None None (Some "") None
           (Some ""));
    first [reflexivity | left; reflexivity | right; reflexivity].
Defined.

(** C7: against criteria whose two date bounds are set with
    [date_from > date_to], the matcher never answers true, and answers false
    on every record of the data model; the driver builds such criteria from
    its arguments without terminating the run. *)
Theorem inverted_range_matches_nothing (criteria : Criteria.t) :
  inverted criteria = true ->
  (forall email, email_matches_criteria email criteria <> Ok true) /\
  (forall email,
      well_formed email = true ->
      email_matches_criteria email criteria = Ok false) /\
  (forall args arg_from arg_to,
      Args.date_from args = Some arg_from ->
      Args.date_to args = Some arg_to ->
      strptime arg_from = Criteria.date_from criteria ->
      strptime arg_to = Criteria.date_to criteria ->
      Args.from_address args = Criteria.from_address criteria ->
      Args.subject args = Criteria.subject criteria ->
      Args.body args = Criteria.body criteria ->
      build_criteria args [] = ([], Done criteria)).
Proof.
  intros Hinv.
  assert (forall email, email_matches_criteria email criteria <> Ok true)
    as Hnever.
  { intros email. unfold email_matches_criteria.
    pose proof (date_range_check_inverted email criteria Hinv) as Hc.
    destruct (date_range_check email criteria) as [[|]|e]; cbn [bind negb];
      congruence. }
  split; [exact Hnever |]. split.
  - intros email Hwf. specialize (Hnever email).
    rewrite (matches_well_formed _ _ Hwf) in *.
    destruct (matches criteria email); congruence.
  - intros args arg_from arg_to Hf Ht Sf St Ha Hs Hb.
    unfold inverted in Hinv.
    destruct criteria as [[a|] [b|] fa su bo]; try discriminate.
    simpl in *. unfold build_criteria, parse_date.
    rewrite Hf, Ht, Ha, Hs, Hb.
    destruct arg_from; [discriminate |]. destruct arg_to; [discriminate |].
    cbn [str_truthy]. rewrite Sf, St. reflexivity.
Qed.

Lemma inverted_range_matches_nothing_witness :
  email_matches_criteria (email_at (Some "2024-06-01T00:00:00"))
                         (date_criteria (Some jun_1) (Some jan_1)) = Ok false
  /\ build_criteria (date_args (Some "2024-06-01") (Some "2024-01-01")) []
     = ([], Done (date_criteria (Some jun_1) (Some jan_1))).
Proof.
  pose proof (inverted_range_matches_nothing
                (date_criteria (Some jun_1) (Some jan_1)) eq_refl)
    as [_ [Hfalse Hbuild]].
  split.
  - apply Hfalse. reflexivity.
  - apply (Hbuild (date_args (Some "2024-06-01") (Some "2024-01-01"))
                  "2024-06-01" "2024-01-01"); reflexivity.
Defined.

(* ------------------------------------------------------------------ *)
(** * Properties of the extractor *)

Lemma is_digit_digit_char (n : Z) : is_digit (digit_char (n mod 10)) = true.
Proof.
  unfold is_digit.
  rewrite digit_val_digit_char; [reflexivity |].
  pose proof (Z.mod_pos_bound n 10). lia.
Qed.

(** What [isoformat] renders has the shape of an ISO-8601 timestamp. *)
Lemma iso8601_shape_isoformat (t : datetime) :
  iso8601_shape (isoformat t) = true.
Proof.
  unfold isoformat. cbn [zfill append iso8601_shape].
  destruct (microsecond t =? 0); cbn [zfill append iso8601_shape];
    rewrite !is_digit_digit_char; reflexivity.
Qed.

(** C8: the extractor returns a record for every message.  When the read of
    the timestamp yields a datetime, the record's [delivery_time] is its
    ISO-8601 rendering: a string of the shape [YYYY-MM-DDThh:mm:ss[.ffffff]]
    that reads back as that datetime.  When the timestamp is absent it is
    null.  When the read raises, or the rendering raises because the value
    is no datetime, the [try] block raises and the record's [delivery_time]
    is null, the record being the one of a message without timestamp; and
    the caller's loop body returns on the message whatever its timestamp:
    the failure does not reach it. *)
Theorem extract_absorbs_timestamp_failure (message : Message.t) :
  (forall t,
      Message.delivery_time message = Ok (Some (Datetime t)) ->
      Email.delivery_time (extract_email_fields message)
      = Some (isoformat t) /\
      iso8601_shape (isoformat t) = true /\
      fromisoformat (isoformat t) = Some t) /\
  (Message.delivery_time message = Ok None ->
   Email.delivery_time (extract_email_fields message) = None) /\
  (forall e,
      Message.delivery_time message = Raise e ->
      delivery_time_attempt message = Raise e /\
      Email.delivery_time (extract_email_fields message) = None) /\
  (Message.delivery_time message = Ok (Some (Other true)) ->
   delivery_time_attempt message = Raise AttributeError /\
   Email.delivery_time (extract_email_fields message) = None) /\
  (Message.delivery_time message = Ok (Some (Other false)) ->
   Email.delivery_time (extract_email_fields message) = None) /\
  (forall e truthy,
      extract_email_fields (with_delivery_time message (Raise e))
      = extract_email_fields (with_delivery_time message (Ok None)) /\
      extract_email_fields
        (with_delivery_time message (Ok (Some (Other truthy))))
      = extract_email_fields (with_delivery_time message (Ok None))) /\
  (forall criteria emails,
      exists emails', visit_message criteria message emails = Ok emails').
Proof.
  split; [| split; [| split; [| split; [| split; [| split]]]]].
  - intros t Ht. rewrite extract_delivery_time, Ht.
    split; [reflexivity |].
    split; [apply iso8601_shape_isoformat | apply fromisoformat_isoformat].
  - intros H. now rewrite extract_delivery_time, H.
  - intros e H. split; [| now rewrite extract_delivery_time, H].
    unfold delivery_time_attempt. now rewrite H.
  - intros H. split; [| now rewrite extract_delivery_time, H].
    unfold delivery_time_attempt. now rewrite H.
  - intros H. now rewrite extract_delivery_time, H.
  - intros e []; split; reflexivity.
  - intros criteria emails. unfold visit_message.
    rewrite (matches_well_formed _ _ (extract_well_formed message)).
    cbn [bind].
    destruct (matches criteria (extract_email_fields message)); eauto.
Qed.

Lemma extract_absorbs_timestamp_failure_witness :
  Email.delivery_time
    (extract_email_fields (timed_message "minutes" jun_1_noon))
  = Some "2024-06-01T12:00:00"
  /\
  Email.delivery_time
    (extract_email_fields (timed_message "minutes" mar_1_precise))
  = Some "2024-03-01T09:05:07.000123"
  /\
  Email.delivery_time
    (extract_email_fields
       (with_delivery_time (timed_message "minutes" jun_1_noon)
                           (Raise (IOError "invalid filetime"))))
  = None
  /\
  Email.delivery_time
    (extract_email_fields
       (with_delivery_time (timed_message "minutes" jun_1_noon)
                           (Ok (Some (Other true)))))
  = None.
Proof.
  split; [| split; [| split]].
  - destruct (extract_absorbs_timestamp_failure
                (timed_message "minutes" jun_1_noon)) as [Hdate _].
    destruct (Hdate jun_1_noon eq_refl) as (Hiso & _ & _).
    rewrite Hiso. reflexivity.
  - destruct (extract_absorbs_timestamp_failure
                (timed_message "minutes" mar_1_precise)) as [Hdate _].
    destruct (Hdate mar_1_precise eq_refl) as (Hiso & _ & _).
    rewrite Hiso. reflexivity.
  - destruct (extract_absorbs_timestamp_failure
                (with_delivery_time (timed_message "minutes" jun_1_noon)
                                    (Raise (IOError "invalid filetime"))))
      as (_ & _ & Hraise & _).
    apply (Hraise (IOError "invalid filetime")). reflexivity.
  - destruct (extract_absorbs_timestamp_failure
                (with_delivery_time (timed_message "minutes" jun_1_noon)
                                    (Ok (Some (Other true)))))
      as (_ & _ & _ & Hrender & _).
    apply Hrender. reflexivity.
Defined.

(* ------------------------------------------------------------------ *)
(** * [strptime] on strings of the shape [YYYY-MM-DD] *)

Lemma digit_val_range (c : ascii) (v : Z) :
  digit_val c = Some v -> 0 <= v <= 9.
Proof.
  unfold digit_val.
  destruct ((48 <=? Z.of_nat (nat_of_ascii c))
            && (Z.of_nat (nat_of_ascii c) <=? 57)) eqn:E; [| discriminate].
  intros [= <-]. apply andb_prop in E. lia.
Qed.

Lemma digit_cases (c : ascii) (v : Z) :
  digit_val c = Some v ->
  v = 0 \/ v = 1 \/ v = 2 \/ v = 3 \/ v = 4 \/ v = 5 \/ v = 6 \/ v = 7 \/
  v = 8 \/ v = 9.
Proof. intros H. apply digit_val_range in H. lia. Qed.

Lemma digit_not_hyphen (c : ascii) (v : Z) (r : string) :
  digit_val c = Some v -> re_lit "-" (String c r) = [].
Proof.
  intros H. unfold re_lit, expect.
  destruct (Ascii.eqb_spec "-" c) as [<- |]; [discriminate | reflexivity].
Qed.

Lemma digit_not_space (c : ascii) (v : Z) :
  digit_val c = Some v -> space_char c = None.
Proof.
  intros H. unfold space_char.
  destruct (Ascii.eqb_spec c " ") as [-> |]; [discriminate | reflexivity].
Qed.

(** The two-digit alternatives of the month group. *)
Lemma month_two_digits (c1 c2 : ascii) (e f : Z) (r : string) :
  digit_val c1 = Some e -> digit_val c2 = Some f ->
  (two_chars (digit_in 1 1) (digit_in 0 2) (String c1 (String c2 r))
   ++ two_chars (digit_in 0 0) (digit_in 1 9) (String c1 (String c2 r)))%list
  = if (1 <=? 10 * e + f) && (10 * e + f <=? 12)
    then [(10 * e + f, r)] else [].
Proof.
  intros H1 H2. unfold two_chars, digit_in. rewrite H1, H2. cbn [obind].
  by_digit_cases (digit_cases _ _ H1) (digit_cases _ _ H2).
Qed.

(** On an ASCII digit [\d] reads that digit. *)
Lemma take_decimal_ascii_digit (c : ascii) (v : Z) (r : string) :
  digit_val c = Some v -> take_decimal (String c r) = Some (v, r).
Proof.
  intros H. pose proof (digit_cases _ _ H) as Hv.
  assert (code c = 48 + v) as Hc.
  { unfold digit_val in H. cbv zeta in H.
    change (Z.of_nat (nat_of_ascii c)) with (code c) in H.
    destruct ((48 <=? code c) && (code c <=? 57)); [| discriminate].
    injection H as H. lia. }
  unfold take_decimal. cbn [utf8_first]. rewrite Hc.
  repeat (destruct Hv as [-> | Hv]; [reflexivity |]). subst. reflexivity.
Qed.

(** The two-digit alternatives of the day group. *)
Lemma day_two_digits (c1 c2 : ascii) (g h : Z) (r : string) :
  digit_val c1 = Some g -> digit_val c2 = Some h ->
  (two_chars (digit_in 3 3) (digit_in 0 1) (String c1 (String c2 r))
   ++ char_then_decimal (digit_in 1 2) (String c1 (String c2 r))
   ++ two_chars (digit_in 0 0) (digit_in 1 9) (String c1 (String c2 r)))%list
  = if (1 <=? 10 * g + h) && (10 * g + h <=? 31)
    then [(10 * g + h, r)] else [].
Proof.
  intros H1 H2. unfold two_chars, char_then_decimal, digit_in.
  rewrite (take_decimal_ascii_digit _ _ r H2), H1, H2. cbn [obind].
  by_digit_cases (digit_cases _ _ H1) (digit_cases _ _ H2).
Qed.

Lemma make_datetime_out_of_range (y mo d : Z) :
  (1 <=? mo) && (mo <=? 12) = false \/ (1 <=? d) && (d <=? 31) = false ->
  make_datetime y mo d 0 0 0 0 = None.
Proof.
  intros H.
  destruct (make_datetime y mo d 0 0 0 0) as [t|] eqn:E; [| reflexivity].
  apply make_datetime_fields in E. pose proof (datetime_bounds t).
  destruct H as [H | H]; apply andb_false_iff in H; lia.
Qed.

Lemma parse_ymd_shape (s : string) (y m d : Z) :
  parse_ymd s = Some (y, m, d) ->
  exists y1 y2 y3 y4 m1 m2 d1 d2 a b c k e f g h,
    s = String y1 (String y2 (String y3 (String y4 (String "-"
        (String m1 (String m2 (String "-" (String d1 (String d2 ""))))))))) /\
    digit_val y1 = Some a /\ digit_val y2 = Some b /\ digit_val y3 = Some c /\
    digit_val y4 = Some k /\ digit_val m1 = Some e /\ digit_val m2 = Some f /\
    digit_val d1 = Some g /\ digit_val d2 = Some h /\
    y = 1000 * a + 100 * b + 10 * c + k /\ m = 10 * e + f /\ d = 10 * g + h.
Proof.
  intros H.
  do 10 (destruct s as [|? s]; [discriminate H |]).
  destruct s; [| discriminate H].
  unfold parse_ymd in H.
  destruct (Ascii.eqb_spec a3 "-"); [| discriminate H].
  destruct (Ascii.eqb_spec a6 "-"); [| discriminate H].
  cbn [andb] in H. subst a3 a6.
  destruct (digit_val a) eqn:E1; [| discriminate H].
  destruct (digit_val a0) eqn:E2; [| discriminate H].
  destruct (digit_val a1) eqn:E3; [| discriminate H].
  destruct (digit_val a2) eqn:E4; [| discriminate H].
  destruct (digit_val a4) eqn:E5; [| discriminate H].
  destruct (digit_val a5) eqn:E6; [| discriminate H].
  destruct (digit_val a7) eqn:E7; [| discriminate H].
  destruct (digit_val a8) eqn:E8; [| discriminate H].
  injection H as <- <- <-.
  repeat eexists; eassumption.
Qed.

(** On a string of the shape [YYYY-MM-DD], [strptime] is the construction of
    the datetime at midnight of the date written. *)
Lemma strptime_parse_ymd (s : string) (y m d : Z) :
  parse_ymd s = Some (y, m, d) ->
  strptime s = make_datetime y m d 0 0 0 0.
Proof.
  intros H.
  destruct (parse_ymd_shape _ _ _ _ H)
    as (y1 & y2 & y3 & y4 & m1 & m2 & d1 & d2 & a & b & c & k & e & f & g & h
        & -> & Ha & Hb & Hc & Hk & He & Hf & Hg & Hh & -> & -> & ->).
  clear H.
  unfold strptime, re_match, re_Y.
  cbn [take_decimals_from].
  rewrite (take_decimal_ascii_digit _ _ _ Ha). cbn [obind].
  rewrite (take_decimal_ascii_digit _ _ _ Hb). cbn [obind].
  rewrite (take_decimal_ascii_digit _ _ _ Hc). cbn [obind].
  rewrite (take_decimal_ascii_digit _ _ _ Hk). cbn [obind flat_map].
  replace ((((0 * 10 + a) * 10 + b) * 10 + c) * 10 + k)
    with (1000 * a + 100 * b + 10 * c + k) by lia.
  set (y := 1000 * a + 100 * b + 10 * c + k).
  rewrite app_nil_r.
  change (re_lit "-" (String "-" ?r)) with [r].
  cbn [flat_map]. rewrite app_nil_r.
  unfold re_m. rewrite app_assoc, (month_two_digits _ _ _ _ _ He Hf).
  rewrite flat_map_app.
  replace (flat_map _ (one_char (digit_in 1 9) _)) with (@nil (Z * Z * Z * string)).
  2: { unfold one_char. destruct (digit_in 1 9 m1); [| reflexivity].
       cbn [flat_map]. now rewrite (digit_not_hyphen _ _ _ Hf). }
  rewrite app_nil_r.
  destruct ((1 <=? 10 * e + f) && (10 * e + f <=? 12)) eqn:Em.
  2: { cbn [flat_map hd_error]. symmetry.
       apply make_datetime_out_of_range. now left. }
  cbn [flat_map]. change (re_lit "-" (String "-" ?r)) with [r].
  cbn [flat_map]. rewrite !app_nil_r.
  unfold re_d. rewrite !app_assoc, <- (app_assoc (two_chars _ _ _)).
  rewrite (day_two_digits _ _ _ _ _ Hg Hh).
  replace (two_chars space_char _ _) with (@nil (Z * string))
    by (unfold two_chars; now rewrite (digit_not_space _ _ Hg)).
  rewrite app_nil_r.
  destruct ((1 <=? 10 * g + h) && (10 * g + h <=? 31)) eqn:Ed.
  - reflexivity.
  - transitivity (@None datetime);
      [| symmetry; apply make_datetime_out_of_range; now right].
    unfold one_char. destruct (digit_in 1 9 d1); reflexivity.
Qed.

Lemma strptime_well_formed (s : string) :
  well_formed_ymd s = true -> exists t, strptime s = Some t.
Proof.
  unfold well_formed_ymd.
  destruct (parse_ymd s) as [[[y m] d]|] eqn:E; [| discriminate].
  intros H. rewrite (strptime_parse_ymd _ _ _ _ E).
  rewrite (make_datetime_valid _ _ _ _ _ _ _ H). eauto.
Qed.

Lemma strptime_midnight (s : string) (t : datetime) :
  strptime s = Some t -> midnight t.
Proof.
  unfold strptime.
  destruct (re_match s) as [[[[y m] d] [|? ?]]|]; try discriminate.
  intros H. apply make_datetime_fields in H. unfold midnight. tauto.
Qed.

Lemma rejected_malformed (arg : option string) :
  rejected arg -> malformed arg.
Proof.
  intros (s & Harg & _ & Hs). exists s. split; [exact Harg |].
  destruct (well_formed_ymd s) eqn:E; [| reflexivity].
  apply strptime_well_formed in E. destruct E as [t Ht]. congruence.
Qed.


(* ------------------------------------------------------------------ *)
(** * Properties of the driver *)

Lemma parse_date_rejected (arg : option string) (option_name : string)
  (tr : list event) :
  rejected arg ->
  parse_date arg option_name tr
  = ((tr ++ [Print ("Error: " ++ option_name
                    ++ " must be in YYYY-MM-DD format.")])%list, Exit 1).
Proof.
  intros (s & -> & Hne & Hs). unfold parse_date.
  destruct s; [congruence |]. cbn [str_truthy]. now rewrite Hs.
Qed.

Lemma parse_date_done (arg : option string) (option_name : string)
  (tr tr' : list event) (bound : option datetime) :
  parse_date arg option_name tr = (tr', Done bound) ->
  tr' = tr /\
  forall t, bound = Some t -> exists s, arg = Some s /\ strptime s = Some t.
Proof.
  unfold parse_date. destruct arg as [s|].
  - destruct (str_truthy s).
    + destruct (strptime s) as [t|] eqn:E.
      * intros [= <- <-]. split; [reflexivity |]. intros t' [= <-]. eauto.
      * discriminate.
    + intros [= <- <-]. split; [reflexivity | discriminate].
  - intros [= <- <-]. split; [reflexivity | discriminate].
Qed.

Lemma parse_date_exit (arg : option string) (option_name : string)
  (tr tr' : list event) (status : Z) :
  parse_date arg option_name tr = (tr', Exit status) ->
  status = 1 /\
  tr' = (tr ++ [Print ("Error: " ++ option_name
                       ++ " must be in YYYY-MM-DD format.")])%list.
Proof.
  unfold parse_date. destruct arg as [s|]; [| discriminate].
  destruct (str_truthy s); [| discriminate].
  destruct (strptime s); [discriminate |].
  intros [= <- <-]. split; reflexivity.
Qed.

Lemma build_criteria_rejected (args : Args.t) :
  rejected (Args.date_from args) \/ rejected (Args.date_to args) ->
  build_criteria args []
  = ([Print "Error: --date-from must be in YYYY-MM-DD format."], Exit 1)
  \/ build_criteria args []
     = ([Print "Error: --date-to must be in YYYY-MM-DD format."], Exit 1).
Proof.
  intros [H | H]; unfold build_criteria, pbind.
  - left. now rewrite (parse_date_rejected _ _ _ H).
  - destruct (parse_date (Args.date_from args) "--date-from" [])
      as [tr' [bound | status]] eqn:E.
    + apply parse_date_done in E. destruct E as [-> _].
      right. now rewrite (parse_date_rejected _ _ _ H).
    + apply parse_date_exit in E. destruct E as [-> ->]. now left.
Qed.

Lemma run_exits_with_build_criteria (w : World) (args : Args.t)
  (tr : list event) (status : Z) :
  build_criteria args [] = (tr, Exit status) -> run w args = (tr, status).
Proof.
  intros E. unfold run, main, pbind at 1. now rewrite E.
Qed.

(** A date argument that is the empty string is handled as an absent one. *)
Lemma parse_date_empty (option_name : string) :
  parse_date (Some "") option_name = parse_date None option_name.
Proof. reflexivity. Qed.

(** [strptime] also accepts a month and a day of one digit: such an argument
    is not of the shape [YYYY-MM-DD], and the run goes on to the archive. *)
Remark one_digit_month_and_day_accepted :
  well_formed_ymd "2024-3-1" = false /\
  strptime "2024-3-1" = strptime "2024-03-01" /\
  run empty_archive (date_args (Some "2024-3-1") None)
  = ([IsFile "mail.pst"; PstOpen "mail.pst"; GetRootFolder;
      WriteJson "output.json" [];
      Print "Successfully extracted 0 emails to 'output.json'."; PstClose], 0).
Proof. repeat split. Qed.

(** [strptime] on digits of other scripts: [%Y] and the second digit of a
    day after [1] or [2] are read by [\d], which takes the decimal digits of
    every script; the other digits are read by ranges of ASCII digits. *)
Remark digits_of_other_scripts :
  strptime (utf8_encode [0x32; 0x30; 0x32; 0x34; 0x2D; 0x30; 0x31; 0x2D;
                         0x31; 0x665])
  = strptime "2024-01-15" /\
  strptime (utf8_encode [0x662; 0x660; 0x662; 0x664; 0x2D; 0x30; 0x31; 0x2D;
                         0x30; 0x31])
  = strptime "2024-01-01" /\
  strptime (utf8_encode [0x32; 0x30; 0x32; 0x34; 0x2D; 0x30; 0x32; 0x2D;
                         0x32; 0x969])
  = strptime "2024-02-23" /\
  strptime (utf8_encode [0x32; 0x30; 0x32; 0x34; 0x2D; 0x30; 0x31; 0x2D;
                         0x665])
  = None /\
  strptime (utf8_encode [0x32; 0x30; 0x32; 0x34; 0x2D; 0x660; 0x661; 0x2D;
                         0x30; 0x31])
  = None /\
  strptime (utf8_encode [0x32; 0x30; 0x32; 0x34; 0x2D; 0x30; 0x31; 0x2D;
                         0x33; 0x661])
  = None /\
  strptime (utf8_encode [0x32; 0x30; 0x32; 0x34; 0x2D; 0x30; 0x32; 0x2D;
                         0x33; 0x660])
  = None /\
  is_set (strptime "2024-01-15") = true.
Proof. repeat split; vm_compute; reflexivity. Qed.

(** C9, as the specification states it, fails: a run whose [--date-from] is
    the empty string, which is not a well-formed date, opens the archive and
    ends with status 0. *)
Lemma malformed_date_counterexample :
  ~ (forall (w : World) (args : Args.t),
        malformed (Args.date_from args) \/ malformed (Args.date_to args) ->
        snd (run w args) <> 0 /\ no_archive_access (fst (run w args))).
Proof.
  intros claim.
  destruct (claim empty_archive (date_args (Some "") None)) as [Hstatus _].
  - left. exists "". split; reflexivity.
  - apply Hstatus. reflexivity.
Qed.

(** C9, amended: when [--date-from] or [--date-to] is a non-empty string
    that [strptime] rejects for the format [%Y-%m-%d], the run prints the
    error line of that option and ends with status 1, and no event of the
    run touches the archive. *)
Theorem rejected_date_exits_before_archive (w : World) (args : Args.t) :
  rejected (Args.date_from args) \/ rejected (Args.date_to args) ->
  snd (run w args) = 1 /\
  no_archive_access (fst (run w args)) /\
  (fst (run w args)
   = [Print "Error: --date-from must be in YYYY-MM-DD format."]
   \/ fst (run w args)
      = [Print "Error: --date-to must be in YYYY-MM-DD format."]).
Proof.
  intros H.
  assert (run w args
          = ([Print "Error: --date-from must be in YYYY-MM-DD format."], 1)
          \/ run w args
             = ([Print "Error: --date-to must be in YYYY-MM-DD format."], 1))
    as [-> | ->].
  { destruct (build_criteria_rejected args H) as [E | E];
      [left | right]; exact (run_exits_with_build_criteria _ _ _ _ E). }
  - split; [reflexivity |]. split; [| now left].
    repeat constructor.
  - split; [reflexivity |]. split; [| now right].
    repeat constructor.
Qed.

Lemma rejected_date_exits_before_archive_witness :
  rejected (Args.date_from (date_args (Some "03-01-2024") None)) /\
  snd (run empty_archive (date_args (Some "03-01-2024") None)) = 1 /\
  no_archive_access
    (fst (run empty_archive (date_args (Some "03-01-2024") None))).
Proof.
  assert (rejected (Args.date_from (date_args (Some "03-01-2024") None)))
    as Hrej.
  { exists "03-01-2024". split; [reflexivity |].
    split; [discriminate | reflexivity]. }
  split; [exact Hrej |].
  destruct (rejected_date_exits_before_archive empty_archive
              (date_args (Some "03-01-2024") None) (or_introl Hrej))
    as [Hstatus [Htrace _]].
  split; [exact Hstatus | exact Htrace].
Defined.

Lemma build_criteria_done (args : Args.t) (tr : list event)
  (criteria : Criteria.t) :
  build_criteria args [] = (tr, Done criteria) ->
  tr = [] /\
  (forall a, Criteria.date_from criteria = Some a ->
             exists s, Args.date_from args = Some s /\ strptime s = Some a) /\
  (forall b, Criteria.date_to criteria = Some b ->
             exists s, Args.date_to args = Some s /\ strptime s = Some b).
Proof.
  unfold build_criteria, pbind.
  destruct (parse_date (Args.date_from args) "--date-from" [])
    as [tr1 [bound1 | status]] eqn:E1; [| discriminate].
  apply parse_date_done in E1. destruct E1 as [-> H1].
  destruct (parse_date (Args.date_to args) "--date-to" [])
    as [tr2 [bound2 | status]] eqn:E2; [| discriminate].
  apply parse_date_done in E2. destruct E2 as [-> H2].
  unfold ret. intros [= <- <-]. simpl. auto.
Qed.

(** A timestamp after midnight is later than the midnight of its date. *)
Lemma after_midnight_same_date (t b : datetime) :
  same_calendar_date t b -> midnight b -> ~ midnight t -> dt_gtb t b = true.
Proof.
  unfold same_calendar_date, midnight. intros (Hy & Hm & Hd) Hb Ht.
  rewrite dt_gtb_key. apply Z.ltb_lt. unfold dt_key.
  pose proof (datetime_bounds t). rewrite Hy, Hm, Hd. lia.
Qed.

(** C10: the date bounds that the driver builds are timestamps at midnight,
    those that [strptime] gives for the two arguments, with the year, month
    and day written in an argument of the shape [YYYY-MM-DD]; hence a record
    delivered on the calendar date of [date_to] but after midnight fails the
    date check and does not match. *)
Theorem date_bounds_are_midnight (args : Args.t) (tr : list event)
  (criteria : Criteria.t) :
  build_criteria args [] = (tr, Done criteria) ->
  (forall a,
      Criteria.date_from criteria = Some a ->
      midnight a /\
      exists s, Args.date_from args = Some s /\ strptime s = Some a /\
                forall y m d, parse_ymd s = Some (y, m, d) ->
                              year a = y /\ month a = m /\ day a = d) /\
  (forall b,
      Criteria.date_to criteria = Some b ->
      midnight b /\
      (exists s, Args.date_to args = Some s /\ strptime s = Some b /\
                 forall y m d, parse_ymd s = Some (y, m, d) ->
                               year b = y /\ month b = m /\ day b = d) /\
      forall email iso t,
        Email.delivery_time email = Some iso ->
        fromisoformat iso = Some t ->
        same_calendar_date t b ->
        ~ midnight t ->
        date_range_check email criteria = Ok false /\
        email_matches_criteria email criteria = Ok false).
Proof.
  intros Hbuild. apply build_criteria_done in Hbuild.
  destruct Hbuild as (_ & Hfrom & Hto).
  assert (forall s t, strptime s = Some t ->
            forall y m d, parse_ymd s = Some (y, m, d) ->
                          year t = y /\ month t = m /\ day t = d) as Hymd.
  { intros s t Hs y m d Hp. rewrite (strptime_parse_ymd _ _ _ _ Hp) in Hs.
    apply make_datetime_fields in Hs. tauto. }
  split.
  - intros a Ha. destruct (Hfrom a Ha) as (s & Hs & Hp).
    split; [exact (strptime_midnight _ _ Hp) | eauto 6].
  - intros b Hb. destruct (Hto b Hb) as (s & Hs & Hp).
    pose proof (strptime_midnight _ _ Hp) as Hmid.
    split; [exact Hmid |]. split; [eauto 6 |].
    intros email iso t Hiso Ht Hsame Hlate.
    assert (date_range_check email criteria = Ok false) as Hcheck.
    { unfold date_range_check.
      rewrite Hb, Hiso, (fromisoformat_truthy _ _ Ht), Ht, orb_true_r.
      cbn [negb is_set after].
      rewrite (after_midnight_same_date _ _ Hsame Hmid Hlate).
      destruct (before t _); reflexivity. }
    split; [exact Hcheck |].
    unfold email_matches_criteria. now rewrite Hcheck.
Qed.

Lemma date_bounds_are_midnight_witness :
  build_criteria (date_args None (Some "2024-06-01")) []
  = ([], Done (date_criteria None (Some jun_1))) /\
  email_matches_criteria (email_at (Some (isoformat jun_1_noon)))
                         (date_criteria None (Some jun_1)) = Ok false.
Proof.
  split; [reflexivity |].
  destruct (date_bounds_are_midnight (date_args None (Some "2024-06-01")) []
              (date_criteria None (Some jun_1)) eq_refl) as [_ Hto].
  destruct (Hto jun_1 eq_refl) as (_ & _ & Hlate).
  apply (Hlate (email_at (Some (isoformat jun_1_noon)))
               (isoformat jun_1_noon) jun_1_noon).
  - reflexivity.
  - reflexivity.
  - repeat split.
  - intros (H & _). discriminate H.
Defined.

(* ------------------------------------------------------------------ *)
(** * Further properties of the driver *)

Lemma walk_exported (root : folder) (criteria : Criteria.t) :
  get_folder_emails root criteria [] = Ok (exported root criteria).
Proof. now rewrite get_folder_emails_walk. Qed.

(** What [main] does once the criteria are built. *)
Lemma run_after_build_criteria (w : World) (args : Args.t) (tr : list event)
  (criteria : Criteria.t) :
  build_criteria args [] = (tr, Done criteria) ->
  run w args
  = if negb (isfile w (Args.pst_path args)) then
      ([IsFile (Args.pst_path args);
        Print ("Error: The file '" ++ Args.pst_path args
               ++ "' does not exist.")], 1)
    else
      match pst_open w (Args.pst_path args) with
      | Raise e =>
        ([IsFile (Args.pst_path args); PstOpen (Args.pst_path args);
          Print ("Error opening PST file: " ++ exception_str e)], 1)
      | Ok root =>
        let emails := exported root criteria in
        match json_dump w (Args.output args) emails with
        | Ok _ =>
          ((opening args
            ++ [WriteJson (Args.output args) emails;
                Print ("Successfully extracted "
                       ++ str_of_nat (List.length emails)
                       ++ " emails to '" ++ Args.output args ++ "'.");
                PstClose])%list, 0)
        | Raise e =>
          ((opening args
            ++ [WriteJson (Args.output args) emails;
                Print ("Error writing to JSON file: "
                       ++ exception_str e)])%list, 1)
        end
      end.
Proof.
  intros Hb. destruct (build_criteria_done _ _ _ Hb) as [-> _].
  unfold run, main, pbind at 1. rewrite Hb.
  unfold open_pst, pbind, emit, print, sys_exit, ret. cbn [app].
  destruct (isfile w (Args.pst_path args)); cbn [negb]; [| reflexivity].
  destruct (pst_open w (Args.pst_path args)) as [root|e]; [| reflexivity].
  rewrite walk_exported. cbn [app].
  destruct (json_dump w (Args.output args) (exported root criteria));
    reflexivity.
Qed.

Lemma build_criteria_exit (args : Args.t) (tr : list event) (status : Z) :
  build_criteria args [] = (tr, Exit status) ->
  status = 1 /\ exists line, tr = [Print line].
Proof.
  unfold build_criteria, pbind.
  destruct (parse_date (Args.date_from args) "--date-from" [])
    as [tr1 [bound1 | status1]] eqn:E1.
  - apply parse_date_done in E1. destruct E1 as [-> _].
    destruct (parse_date (Args.date_to args) "--date-to" [])
      as [tr2 [bound2 | status2]] eqn:E2; [discriminate |].
    apply parse_date_exit in E2. destruct E2 as [-> ->].
    intros [= <- <-]. eauto.
  - apply parse_date_exit in E1. destruct E1 as [-> ->].
    intros [= <- <-]. eauto.
Qed.

(** X1: a run whose date arguments are accepted, whose archive opens and
    whose output can be written checks the path, opens the archive, writes
    once the matching records in the order of the walk, prints their number,
    closes the archive and ends with status 0. *)
Theorem successful_run (w : World) (args : Args.t) (tr : list event)
  (criteria : Criteria.t) (root : folder) :
  build_criteria args [] = (tr, Done criteria) ->
  isfile w (Args.pst_path args) = true ->
  pst_open w (Args.pst_path args) = Ok root ->
  json_dump w (Args.output args) (exported root criteria) = Ok tt ->
  run w args
  = ([IsFile (Args.pst_path args); PstOpen (Args.pst_path args);
      GetRootFolder;
      WriteJson (Args.output args) (exported root criteria);
      Print ("Successfully extracted "
             ++ str_of_nat (List.length (exported root criteria))
             ++ " emails to '" ++ Args.output args ++ "'.");
      PstClose], 0).
Proof.
  intros Hb Hfile Hopen Hdump.
  rewrite (run_after_build_criteria _ _ _ _ Hb), Hfile, Hopen. cbn [negb].
  cbv zeta. now rewrite Hdump.
Qed.

Lemma successful_run_witness :
  run (archive_of folderA) (date_args None None)
  = ([IsFile "mail.pst"; PstOpen "mail.pst"; GetRootFolder;
      WriteJson "output.json"
        [extract_email_fields msg3; extract_email_fields msg1;
         extract_email_fields msg2];
      Print "Successfully extracted 3 emails to 'output.json'.";
      PstClose], 0).
Proof.
  apply (successful_run (archive_of folderA) (date_args None None) []
           no_criteria folderA); reflexivity.
Defined.

(** X2: once the arguments are parsed, a run whose path is not a file ends
    with status 1 and does nothing but, at most, check the path and print:
    the archive is not opened, no folder is read, nothing is written.  When
    moreover the date arguments are accepted, the run is the check of the
    path followed by the line that the file does not exist. *)
Theorem missing_file_exits (w : World) (args : Args.t) :
  isfile w (Args.pst_path args) = false ->
  snd (run w args) = 1 /\
  (forall e,
      In e (fst (run w args)) ->
      e = IsFile (Args.pst_path args) \/ exists line, e = Print line) /\
  (forall tr criteria,
      build_criteria args [] = (tr, Done criteria) ->
      run w args
      = ([IsFile (Args.pst_path args);
          Print ("Error: The file '" ++ Args.pst_path args
                 ++ "' does not exist.")], 1)).
Proof.
  intros Hfile.
  destruct (build_criteria args []) as [tr [criteria | status]] eqn:Hb.
  - rewrite (run_after_build_criteria _ _ _ _ Hb), Hfile. cbn [negb fst snd].
    split; [reflexivity |]. split; [| reflexivity].
    intros e [<- | [<- | []]]; eauto.
  - rewrite (run_exits_with_build_criteria _ _ _ _ Hb).
    destruct (build_criteria_exit _ _ _ Hb) as [-> [line ->]].
    cbn [fst snd]. split; [reflexivity |]. split; [| discriminate].
    intros e [<- | []]. eauto.
Qed.

Lemma missing_file_exits_witness :
  run no_file (date_args (Some "2024-01-01") None)
  = ([IsFile "mail.pst"; Print "Error: The file 'mail.pst' does not exist."],
     1)
  /\
  snd (run no_file (date_args (Some "03-01-2024") None)) = 1.
Proof.
  split.
  - destruct (missing_file_exits no_file
                (date_args (Some "2024-01-01") None) eq_refl)
      as (_ & _ & Hexact).
    apply (Hexact [] (date_criteria (Some jan_1) None)). reflexivity.
  - destruct (missing_file_exits no_file
                (date_args (Some "03-01-2024") None) eq_refl)
      as (Hstatus & _).
    exact Hstatus.
Defined.

(** X3: when the library fails to open the archive, the run prints the
    error with the text of the exception and ends with status 1; the folders
    are not read and nothing is written. *)
Theorem open_failure_exits (w : World) (args : Args.t) (tr : list event)
  (criteria : Criteria.t) (e : exception) :
  build_criteria args [] = (tr, Done criteria) ->
  isfile w (Args.pst_path args) = true ->
  pst_open w (Args.pst_path args) = Raise e ->
  run w args
  = ([IsFile (Args.pst_path args); PstOpen (Args.pst_path args);
      Print ("Error opening PST file: " ++ exception_str e)], 1).
Proof.
  intros Hb Hfile Hopen.
  now rewrite (run_after_build_criteria _ _ _ _ Hb), Hfile, Hopen.
Qed.

Lemma open_failure_exits_witness :
  run not_a_pst (date_args None None)
  = ([IsFile "mail.pst"; PstOpen "mail.pst";
      Print "Error opening PST file: invalid file signature"], 1).
Proof.
  apply (open_failure_exits not_a_pst (date_args None None) [] no_criteria
           (IOError "invalid file signature")); reflexivity.
Defined.

(** X4: when writing the output fails, the run prints the error and ends
    with status 1 without closing the archive and without the success
    line. *)
Theorem write_failure_exits (w : World) (args : Args.t) (tr : list event)
  (criteria : Criteria.t) (root : folder) (e : exception) :
  build_criteria args [] = (tr, Done criteria) ->
  isfile w (Args.pst_path args) = true ->
  pst_open w (Args.pst_path args) = Ok root ->
  json_dump w (Args.output args) (exported root criteria) = Raise e ->
  run w args
  = ([IsFile (Args.pst_path args); PstOpen (Args.pst_path args);
      GetRootFolder;
      WriteJson (Args.output args) (exported root criteria);
      Print ("Error writing to JSON file: " ++ exception_str e)], 1).
Proof.
  intros Hb Hfile Hopen Hdump.
  rewrite (run_after_build_criteria _ _ _ _ Hb), Hfile, Hopen. cbn [negb].
  cbv zeta. now rewrite Hdump.
Qed.

Lemma write_failure_exits_witness :
  run (read_only_output folderA) (date_args None None)
  = ([IsFile "mail.pst"; PstOpen "mail.pst"; GetRootFolder;
      WriteJson "output.json"
        [extract_email_fields msg3; extract_email_fields msg1;
         extract_email_fields msg2];
      Print "Error writing to JSON file: Permission denied"], 1).
Proof.
  apply (write_failure_exits (read_only_output folderA) (date_args None None)
           [] no_criteria folderA (IOError "Permission denied")); reflexivity.
Defined.

(** Once the arguments are parsed, the run ends with status 0 or 1 and
    closes the archive exactly when it ends with status 0. *)
Lemma run_closes_iff_status_zero (w : World) (args : Args.t) :
  (snd (run w args) = 0 \/ snd (run w args) = 1) /\
  (In PstClose (fst (run w args)) <-> snd (run w args) = 0).
Proof.
  destruct (build_criteria args []) as [tr [criteria | status]] eqn:Hb.
  - rewrite (run_after_build_criteria _ _ _ _ Hb).
    destruct (isfile w (Args.pst_path args)); cbn [negb].
    + destruct (pst_open w (Args.pst_path args)) as [root|e].
      * cbv zeta.
        destruct (json_dump w (Args.output args) (exported root criteria));
          cbn [fst snd opening app In];
          (split; [auto |]); split; intros H;
          try discriminate H; try reflexivity; intuition discriminate.
      * cbn [fst snd In]. split; [auto |].
        split; intros H; [intuition discriminate | discriminate H].
    + cbn [fst snd In]. split; [auto |].
      split; intros H; [intuition discriminate | discriminate H].
  - rewrite (run_exits_with_build_criteria _ _ _ _ Hb).
    destruct (build_criteria_exit _ _ _ Hb) as [-> [line ->]].
    cbn [fst snd In]. split; [auto |].
    split; intros H; [intuition discriminate | discriminate H].
Qed.

(** X5: a run of the script, whatever [parse_arguments] makes of the
    command line, ends with status 0, 1 or 2, with 2 exactly on a usage
    error; it closes the archive only if it ends with status 0, and a run
    that returns from [parse_arguments] and ends with status 0 has closed
    it: no failing run reaches [pst.close()]. *)
Theorem script_status_and_close (w : World) (command_line : parsed) :
  (snd (script w command_line) = 0 \/ snd (script w command_line) = 1
   \/ snd (script w command_line) = 2) /\
  (snd (script w command_line) = 2
   <-> exists text, command_line = Usage_error text) /\
  (In PstClose (fst (script w command_line)) ->
   snd (script w command_line) = 0) /\
  (forall args,
      command_line = Namespace args ->
      snd (script w command_line) = 0 ->
      In PstClose (fst (script w command_line))).
Proof.
  destruct command_line as [args | text | text]; cbn [script fst snd In].
  - destruct (run_closes_iff_status_zero w args) as [Hstatus Hclose].
    split; [tauto |]. split; [| split].
    + split.
      * intros H. rewrite H in Hstatus. destruct Hstatus; discriminate.
      * intros [text H]. discriminate H.
    + apply Hclose.
    + intros _ _. apply Hclose.
  - split; [tauto |]. split; [| split].
    + split; eauto.
    + intros [H | []]. discriminate H.
    + intros args H. discriminate H.
  - split; [tauto |]. split; [| split].
    + split; [discriminate |]. intros [t H]. discriminate H.
    + intros [H | []]. discriminate H.
    + intros args H. discriminate H.
Qed.

Lemma script_status_and_close_witness :
  In PstClose (fst (script (archive_of folderA)
                           (Namespace (date_args None None)))).
Proof.
  destruct (script_status_and_close (archive_of folderA)
              (Namespace (date_args None None))) as (_ & _ & _ & Hclosed).
  apply (Hclosed (date_args None None)); reflexivity.
Defined.

(* ------------------------------------------------------------------ *)
(** * Further properties of the matcher *)

Lemma datetime_eq (a b : datetime) :
  year a = year b -> month a = month b -> day a = day b ->
  hour a = hour b -> minute a = minute b -> second a = second b ->
  microsecond a = microsecond b -> a = b.
Proof.
  destruct a, b; simpl; intros; subst.
  f_equal. apply UIP_dec, bool_dec.
Qed.

Lemma dt_key_injective (a b : datetime) : dt_key a = dt_key b -> a = b.
Proof.
  intros H. pose proof (datetime_bounds a). pose proof (datetime_bounds b).
  unfold dt_key in H. apply datetime_eq; lia.
Qed.



(** X6: a record matches the criteria exactly when it matches each of the
    four checks taken alone (the date range, the sender, the subject, the
    body): the checks are combined by a logical and. *)
Theorem matches_each_check (criteria : Criteria.t) (email : Email.t) :
  matches criteria email
  = matches (only_dates criteria) email
    && matches (only_from_address criteria) email
    && matches (only_subject criteria) email
    && matches (only_body criteria) email.
Proof.
  destruct criteria as [df dt fa su bo].
  unfold matches, email_matches_criteria, date_range_check,
    only_dates, only_from_address, only_subject, only_body.
  cbn [Criteria.date_from Criteria.date_to Criteria.from_address
       Criteria.subject Criteria.body is_set orb lacks bind negb].
  destruct (is_set df || is_set dt).
  - destruct (negb (truthy (Email.delivery_time email))); [reflexivity |].
    destruct (Email.delivery_time email) as [iso|]; [| reflexivity].
    destruct (fromisoformat iso) as [t|]; [| reflexivity].
    destruct (before t df); [reflexivity |].
    destruct (after t dt); [reflexivity |]. cbn [bind negb].
    destruct (lacks fa _), (lacks su _), (lacks bo _); reflexivity.
  - cbn [bind negb].
    destruct (lacks fa _), (lacks su _), (lacks bo _); reflexivity.
Qed.


Lemma date_range_check_looser (email : Email.t) (loose strict : Criteria.t) :
  looser loose strict ->
  date_range_check email strict = Ok true ->
  date_range_check email loose = Ok true.
Proof.
  intros (Hf & Ht & _). unfold date_range_check.
  destruct Hf as [-> | ->], Ht as [-> | ->]; cbn [is_set orb];
    try reflexivity; try tauto.
  - destruct (Criteria.date_to strict) as [b|];
      [| reflexivity].
    rewrite orb_true_r. cbn [is_set orb].
    destruct (negb (truthy _)); [discriminate |].
    destruct (Email.delivery_time email); [| discriminate].
    destruct (fromisoformat _) as [t|]; [| discriminate].
    cbn [before]. destruct (before t _); [discriminate | tauto].
  - destruct (Criteria.date_from strict) as [a|];
      [| reflexivity].
    cbn [is_set orb].
    destruct (negb (truthy _)); [discriminate |].
    destruct (Email.delivery_time email); [| discriminate].
    destruct (fromisoformat _) as [t|]; [| discriminate].
    cbn [after]. destruct (before t _); [discriminate |].
    destruct (after t _); [discriminate | tauto].
Qed.

Lemma lacks_looser (loose strict : option string) (field : string) :
  loose = None \/ loose = strict ->
  lacks strict field = false -> lacks loose field = false.
Proof. intros [-> | ->]; auto. Qed.

(** X8: unsetting criteria never removes a match: a record that matches
    [strict] matches every criteria obtained from it by leaving some of its
    fields unset, so the records exported under [strict] are among those
    exported under the looser criteria. *)
Theorem looser_criteria_keep_matches (loose strict : Criteria.t) :
  looser loose strict ->
  (forall email, matches strict email = true -> matches loose email = true)
  /\
  (forall root, incl (exported root strict) (exported root loose)).
Proof.
  intros Hl.
  assert (forall email,
             matches strict email = true -> matches loose email = true)
    as Hm.
  { intros email. unfold matches, email_matches_criteria.
    pose proof (date_range_check_looser email loose strict Hl) as Hd.
    destruct Hl as (_ & _ & Ha & Hs & Hb).
    destruct (date_range_check email strict) as [[|]|e]; cbn [bind negb];
      try discriminate.
    rewrite (Hd eq_refl). cbn [bind negb].
    pose proof (lacks_looser _ _ (Email.from email) Ha) as La.
    pose proof (lacks_looser _ _ (Email.subject email) Hs) as Ls.
    pose proof (lacks_looser _ _ (Email.body email) Hb) as Lb.
    destruct (lacks (Criteria.from_address strict) _); [discriminate |].
    destruct (lacks (Criteria.subject strict) _); [discriminate |].
    destruct (lacks (Criteria.body strict) _); [discriminate |].
    now rewrite La, Ls, Lb. }
  split; [exact Hm |].
  intros root email. unfold exported. rewrite !filter_In.
  intros [Hin H]. split; [exact Hin | now apply Hm].
Qed.

Lemma looser_criteria_keep_matches_witness :
  matches (subject_criteria "report")
          (email_at (Some "2024-06-01T00:00:00")) = true /\
  matches no_criteria (email_at (Some "2024-06-01T00:00:00")) = true.
Proof.
  split; [reflexivity |].
  assert (looser no_criteria (subject_criteria "report")) as Hl.
  { repeat split; left; reflexivity. }
  destruct (looser_criteria_keep_matches _ _ Hl) as [Hm _].
  apply Hm. reflexivity.
Defined.

(** X9: when [date_from] and [date_to] are the same instant, the date check
    lets through the records delivered at exactly that instant and no
    other: with the midnight bounds that the driver builds, giving the same
    day for both options selects only the records delivered at
    00:00:00. *)
Theorem equal_bounds_select_one_instant (email : Email.t)
  (criteria : Criteria.t) (bound t : datetime) (iso : string) :
  Criteria.date_from criteria = Some bound ->
  Criteria.date_to criteria = Some bound ->
  Email.delivery_time email = Some iso ->
  fromisoformat iso = Some t ->
  (date_range_check email criteria = Ok true <-> t = bound) /\
  (t <> bound -> email_matches_criteria email criteria = Ok false).
Proof.
  intros Hf Ht Hiso Hparse.
  assert (date_range_check email criteria
          = Ok (negb (dt_ltb t bound) && negb (dt_gtb t bound))) as Hcheck.
  { unfold date_range_check.
    rewrite Hf, Ht, Hiso, (fromisoformat_truthy _ _ Hparse), Hparse.
    cbn [is_set orb negb before after].
    destruct (dt_ltb t bound), (dt_gtb t bound); reflexivity. }
  assert (negb (dt_ltb t bound) && negb (dt_gtb t bound) = true
          <-> t = bound) as Heq.
  { rewrite dt_ltb_key, dt_gtb_key, andb_true_iff, !negb_true_iff,
      !Z.ltb_ge.
    split.
    - intros [H1 H2]. apply dt_key_injective. lia.
    - intros ->. lia. }
  split.
  - rewrite Hcheck. split.
    + intros [= H]. now apply Heq.
    + intros H. f_equal. now apply Heq.
  - intros Hne. unfold email_matches_criteria. rewrite Hcheck.
    destruct (negb (dt_ltb t bound) && negb (dt_gtb t bound)) eqn:E;
      [| reflexivity].
    exfalso. apply Hne. now apply Heq.
Qed.

Lemma equal_bounds_select_one_instant_witness :
  email_matches_criteria (email_at (Some (isoformat jun_1_noon)))
                         (date_criteria (Some jun_1) (Some jun_1))
  = Ok false.
Proof.
  apply (equal_bounds_select_one_instant
           (email_at (Some (isoformat jun_1_noon)))
           (date_criteria (Some jun_1) (Some jun_1))
           jun_1 jun_1_noon (isoformat jun_1_noon));
    try reflexivity.
  intros H. discriminate H.
Defined.

(* ------------------------------------------------------------------ *)
(** * The extractor followed by the matcher *)

(** X10: the timestamp string that the extractor stores parses back, in the
    matcher, to the timestamp of the message; and two different timestamps
    are never stored as the same string. *)
Theorem delivery_time_round_trip (message : Message.t) (t : datetime) :
  Message.delivery_time message = Ok (Some (Datetime t)) ->
  (exists iso,
      Email.delivery_time (extract_email_fields message) = Some iso /\
      fromisoformat iso = Some t) /\
  (forall t', isoformat t' = isoformat t -> t' = t).
Proof.
  intros Ht. split.
  - exists (isoformat t). rewrite extract_delivery_time, Ht.
    split; [reflexivity | apply fromisoformat_isoformat].
  - intros t' H.
    pose proof (fromisoformat_isoformat t') as H'. rewrite H in H'.
    rewrite fromisoformat_isoformat in H'. congruence.
Qed.

Lemma delivery_time_round_trip_witness :
  exists iso,
    Email.delivery_time
      (extract_email_fields (timed_message "minutes" jun_1_noon)) = Some iso
    /\ fromisoformat iso = Some jun_1_noon.
Proof.
  apply (delivery_time_round_trip (timed_message "minutes" jun_1_noon)
           jun_1_noon).
  reflexivity.
Defined.

(** X11: on the record of any message, under any criteria, the matcher
    returns an answer: the parse of the stored timestamp never raises. *)
Theorem matcher_total_on_extracted (message : Message.t)
  (criteria : Criteria.t) :
  exists answer,
    email_matches_criteria (extract_email_fields message) criteria
    = Ok answer.
Proof.
  eexists. apply matches_well_formed, extract_well_formed.
Qed.

(** X12: the date check on the record of a message.  A message whose
    timestamp reads as [t] passes exactly when [t] is not before [date_from]
    and not after [date_to], for the bounds that are set; a message without
    a timestamp, or whose timestamp cannot be read, passes exactly when no
    bound is set. *)
Theorem date_check_on_message (message : Message.t) (criteria : Criteria.t) :
  date_range_check (extract_email_fields message) criteria
  = match Message.delivery_time message with
    | Ok (Some (Datetime t)) =>
      Ok (negb (before t (Criteria.date_from criteria))
          && negb (after t (Criteria.date_to criteria)))
    | _ =>
      Ok (negb (is_set (Criteria.date_from criteria)
                || is_set (Criteria.date_to criteria)))
    end.
Proof.
  unfold date_range_check. rewrite extract_delivery_time.
  destruct (Message.delivery_time message) as [[[t|b]|]|e].
  - rewrite (fromisoformat_truthy _ _ (fromisoformat_isoformat t)),
      fromisoformat_isoformat. cbn [negb].
    destruct (Criteria.date_from criteria) as [a|],
             (Criteria.date_to criteria) as [b|];
      cbn [is_set orb before after negb andb];
      try reflexivity.
    + destruct (dt_ltb t a), (dt_gtb t b); reflexivity.
    + destruct (dt_ltb t a); reflexivity.
    + destruct (dt_gtb t b); reflexivity.
  - destruct (is_set _ || is_set _); reflexivity.
  - destruct (is_set _ || is_set _); reflexivity.
  - destruct (is_set _ || is_set _); reflexivity.
Qed.

Lemma contains_in_empty (needle : string) :
  str_truthy needle = true -> contains (lower needle) "" = false.
Proof.
  intros H. rewrite <- str_truthy_lower in H.
  destruct (lower needle); [discriminate | reflexivity].
Qed.

Lemma lacks_empty_field (criterion : option string) :
  truthy criterion = true -> lacks criterion "" = true.
Proof.
  destruct criterion as [needle|]; [| discriminate]. cbn [truthy lacks].
  intros H. change (lower "") with "".
  now rewrite H, (contains_in_empty _ H).
Qed.

Lemma matches_lacking (criteria : Criteria.t) (email : Email.t) :
  lacks (Criteria.from_address criteria) (Email.from email) = true
  \/ lacks (Criteria.subject criteria) (Email.subject email) = true
  \/ lacks (Criteria.body criteria) (Email.body email) = true ->
  matches criteria email = false.
Proof.
  unfold matches, email_matches_criteria.
  destruct (date_range_check email criteria) as [[|]|e]; cbn [bind negb];
    try reflexivity.
  intros [H | [H | H]]; rewrite H;
    repeat match goal with
           | |- context [if ?c then _ else _] => destruct c
           end; reflexivity.
Qed.

(** X13: a message that lacks a field is never exported under a non-empty
    criterion on that field: no sender name under [--from], no subject under
    [--subject], neither a plain-text nor an HTML body under [--body]. *)
Theorem absent_field_never_matches (message : Message.t)
  (criteria : Criteria.t) :
  (truthy (Message.sender_name message) = false ->
   truthy (Criteria.from_address criteria) = true ->
   matches criteria (extract_email_fields message) = false) /\
  (truthy (Message.subject message) = false ->
   truthy (Criteria.subject criteria) = true ->
   matches criteria (extract_email_fields message) = false) /\
  (truthy (Message.plain_text_body message) = false ->
   truthy (Message.html_body message) = false ->
   truthy (Criteria.body criteria) = true ->
   matches criteria (extract_email_fields message) = false).
Proof.
  assert (forall o, truthy o = false -> or_empty o = "") as Hempty.
  { intros [[|c s]|]; [reflexivity | discriminate | reflexivity]. }
  repeat split.
  - intros Hm Hc. apply matches_lacking. left.
    cbn [extract_email_fields Email.from]. rewrite (Hempty _ Hm).
    now apply lacks_empty_field.
  - intros Hm Hc. apply matches_lacking. right; left.
    cbn [extract_email_fields Email.subject]. rewrite (Hempty _ Hm).
    now apply lacks_empty_field.
  - intros Hp Hh Hc. apply matches_lacking. right; right.
    cbn [extract_email_fields Email.body]. unfold py_or.
    rewrite Hp, (Hempty _ Hh). now apply lacks_empty_field.
Qed.

Lemma absent_field_never_matches_witness :
  matches (subject_criteria "report")
          (extract_email_fields
             (Message.mk None (Some "the report") None None None (Ok None)))
  = false.
Proof.
  destruct (absent_field_never_matches
              (Message.mk None (Some "the report") None None None (Ok None))
              (subject_criteria "report")) as (_ & Hsubject & _).
  apply Hsubject; reflexivity.
Defined.

(* ------------------------------------------------------------------ *)
(** * Further properties of the folder walk *)

Lemma filter_all {A} (f : A -> bool) (l : list A) :
  (forall x, In x l -> f x = true) -> filter f l = l.
Proof.
  induction l as [|x l IH]; intros H; simpl; [reflexivity |].
  rewrite (H x (or_introl eq_refl)). f_equal. apply IH.
  intros y Hy. apply H. now right.
Qed.

Lemma unconstrained_matches (criteria : Criteria.t) (email : Email.t) :
  unconstrained criteria = true -> matches criteria email = true.
Proof.
  unfold unconstrained. rewrite !andb_true_iff, !negb_true_iff.
  intros ((((Hf & Ht) & Ha) & Hs) & Hb).
  assert (forall o field, truthy o = false -> lacks o field = false) as L.
  { intros [[|c s]|] field H; try reflexivity. discriminate H. }
  unfold matches, email_matches_criteria, date_range_check.
  rewrite Hf, Ht. cbn [orb bind negb].
  now rewrite (L _ _ Ha), (L _ _ Hs), (L _ _ Hb).
Qed.

(** X14: under criteria with no active check (no date bound, every text
    criterion unset or empty) the walk returns one record for every message
    of the tree, in the order of the walk: nothing is filtered out. *)
Theorem unconstrained_walk_exports_all (f : folder) (criteria : Criteria.t) :
  unconstrained criteria = true ->
  get_folder_emails f criteria []
  = Ok (map extract_email_fields (walk_order f)) /\
  List.length (exported f criteria) = List.length (walk_order f).
Proof.
  intros H.
  assert (exported f criteria = map extract_email_fields (walk_order f))
    as E.
  { unfold exported. apply filter_all. intros email _.
    now apply unconstrained_matches. }
  split.
  - now rewrite walk_exported, E.
  - now rewrite E, length_map.
Qed.

Lemma unconstrained_walk_exports_all_witness :
  get_folder_emails folderA (Criteria.mk None None (Some "") None (Some ""))
                    []
  = Ok (map extract_email_fields [msg3; msg1; msg2]).
Proof.
  apply (unconstrained_walk_exports_all folderA
           (Criteria.mk None None (Some "") None (Some ""))).
  reflexivity.
Defined.

Lemma in_walk_order (m : Message.t) (f : folder) :
  In m (walk_order f) <-> in_folder m f.
Proof.
  split.
  - revert m. induction f as [subs msgs IH] using folder_induction.
    intros m. cbn [walk_order]. rewrite in_app_iff, in_flat_map.
    intros [(sub & Hsub & Hm) | Hm].
    + apply (in_folder_sub m subs msgs sub Hsub).
      rewrite Forall_forall in IH. now apply IH.
    + now apply in_folder_here.
  - induction 1 as [subs msgs Hm | subs msgs sub Hsub _ IH];
      cbn [walk_order]; rewrite in_app_iff, in_flat_map.
    + now right.
    + left. eauto.
Qed.

(** X15: the walk exports a record exactly when it is the record of a
    message that lies somewhere in the folder tree and matches the criteria:
    no message of any depth is skipped and nothing else is exported. *)
Theorem walk_exports_exactly_matching (f : folder) (criteria : Criteria.t) :
  exists emails,
    get_folder_emails f criteria [] = Ok emails /\
    forall email,
      In email emails <->
      exists m, in_folder m f /\ extract_email_fields m = email /\
                matches criteria email = true.
Proof.
  exists (exported f criteria). split; [apply walk_exported |].
  intros email. unfold exported. rewrite filter_In, in_map_iff. split.
  - intros [(m & Hm & Hin) Hmatch]. exists m.
    rewrite <- in_walk_order. auto.
  - intros (m & Hin & Hm & Hmatch). split; [| exact Hmatch].
    exists m. rewrite in_walk_order. auto.
Qed.

(* ------------------------------------------------------------------ *)
(** * Date arguments of the shape [YYYY-MM-DD] *)

Lemma make_datetime_invalid (y mo d h mi s us : Z) :
  valid_fields y mo d h mi s us = false ->
  make_datetime y mo d h mi s us = None.
Proof.
  intros H.
  destruct (make_datetime y mo d h mi s us) as [t|] eqn:E; [| reflexivity].
  apply make_datetime_fields in E.
  destruct t as [y' mo' d' h' mi' s' us' Hok]. simpl in E.
  destruct E as (-> & -> & -> & -> & -> & -> & ->). congruence.
Qed.

Lemma parse_ymd_truthy (s : string) (y m d : Z) :
  parse_ymd s = Some (y, m, d) -> str_truthy s = true.
Proof. destruct s; [discriminate | reflexivity]. Qed.

(** X16: a date argument of the shape [YYYY-MM-DD] is accepted exactly when
    it names a date of the calendar.  Accepted, it becomes the bound at
    midnight of that date and nothing is printed; otherwise (a month 13, a
    30th of February) the driver prints the format error and exits with
    status 1. *)
Theorem shaped_date_argument (s option_name : string) (y m d : Z)
  (tr : list event) :
  parse_ymd s = Some (y, m, d) ->
  (valid_fields y m d 0 0 0 0 = true ->
   exists t,
     parse_date (Some s) option_name tr = (tr, Done (Some t)) /\
     year t = y /\ month t = m /\ day t = d /\ midnight t) /\
  (valid_fields y m d 0 0 0 0 = false ->
   parse_date (Some s) option_name tr
   = ((tr ++ [Print ("Error: " ++ option_name
                     ++ " must be in YYYY-MM-DD format.")])%list, Exit 1)).
Proof.
  intros Hs. unfold parse_date.
  rewrite (parse_ymd_truthy _ _ _ _ Hs), (strptime_parse_ymd _ _ _ _ Hs).
  split; intros Hv.
  - rewrite (make_datetime_valid _ _ _ _ _ _ _ Hv).
    eexists. split; [reflexivity |]. unfold midnight. simpl. tauto.
  - now rewrite (make_datetime_invalid _ _ _ _ _ _ _ Hv).
Qed.

Lemma shaped_date_argument_witness :
  (exists t,
      parse_date (Some "2024-02-29") "--date-from" [] = ([], Done (Some t)) /\
      year t = 2024 /\ month t = 2 /\ day t = 29 /\ midnight t) /\
  parse_date (Some "2023-02-29") "--date-from" []
  = ([Print "Error: --date-from must be in YYYY-MM-DD format."], Exit 1).
Proof.
  split.
  - apply (shaped_date_argument "2024-02-29" "--date-from" 2024 2 29 []);
      reflexivity.
  - apply (shaped_date_argument "2023-02-29" "--date-from" 2023 2 29 []);
      reflexivity.
Defined.

(* ------------------------------------------------------------------ *)
(** * The JSON text loses nothing *)

Lemma read_string_body_escape_char (c : ascii) (r : string) :
  read_string_body (escape_char c ++ r)
  = obind (read_string_body r) (fun x => let '(t, rest) := x in
                                          Some (String c t, rest)).
Proof. destruct c as [[] [] [] [] [] [] [] []]; reflexivity. Qed.

Lemma read_string_body_escape (s rest : string) :
  read_string_body (escape s ++ String quote_char rest) = Some (s, rest).
Proof.
  induction s as [|c s IH]; [reflexivity |].
  cbn [escape]. rewrite append_assoc, read_string_body_escape_char, IH.
  reflexivity.
Qed.

(** The encoding of a string is recognised at the front of a text. *)
Lemma encode_basestring_prefix_free (s1 s2 r1 r2 : string) :
  encode_basestring s1 ++ r1 = encode_basestring s2 ++ r2 ->
  s1 = s2 /\ r1 = r2.
Proof.
  unfold encode_basestring. cbn [append]. rewrite !append_assoc.
  cbn [append]. intros [= H].
  apply (f_equal read_string_body) in H.
  rewrite !read_string_body_escape in H. now injection H.
Qed.

Lemma append_inv_head (p a b : string) : p ++ a = p ++ b -> a = b.
Proof.
  induction p as [|c p IH]; cbn [append]; [auto |].
  intros [= H]. auto.
Qed.

Lemma encode_value_prefix_free (v1 v2 : option string) (r1 r2 : string) :
  encode_value v1 ++ r1 = encode_value v2 ++ r2 -> v1 = v2 /\ r1 = r2.
Proof.
  destruct v1 as [s1|], v2 as [s2|]; cbn [encode_value].
  - intros H. apply encode_basestring_prefix_free in H.
    destruct H as [-> ->]. auto.
  - intros H. discriminate H.
  - intros H. discriminate H.
  - intros H. apply append_inv_head in H. auto.
Qed.

Lemma encode_email_prefix_free (e1 e2 : Email.t) (r1 r2 : string) :
  encode_email e1 ++ r1 = encode_email e2 ++ r2 -> e1 = e2 /\ r1 = r2.
Proof.
  destruct e1 as [su1 bo1 fr1 to1 dt1], e2 as [su2 bo2 fr2 to2 dt2].
  unfold encode_email.
  cbn [Email.subject Email.body Email.from Email.to Email.delivery_time].
  rewrite !append_assoc. intros H.
  do 4 apply append_inv_head in H.
  apply encode_basestring_prefix_free in H. destruct H as [-> H].
  do 4 apply append_inv_head in H.
  apply encode_basestring_prefix_free in H. destruct H as [-> H].
  do 4 apply append_inv_head in H.
  apply encode_basestring_prefix_free in H. destruct H as [-> H].
  do 4 apply append_inv_head in H.
  apply encode_basestring_prefix_free in H. destruct H as [-> H].
  do 4 apply append_inv_head in H.
  apply encode_value_prefix_free in H. destruct H as [-> H].
  do 2 apply append_inv_head in H. auto.
Qed.

Lemma encode_items_cons (e e' : Email.t) (l : list Email.t) :
  encode_items (e :: e' :: l)
  = encode_email e ++ "," ++ newline_indent 1 ++ encode_items (e' :: l).
Proof. reflexivity. Qed.

Lemma encode_items_injective (l1 l2 : list Email.t) :
  l1 <> [] -> l2 <> [] ->
  encode_items l1 ++ newline_indent 0 ++ "]"
  = encode_items l2 ++ newline_indent 0 ++ "]" ->
  l1 = l2.
Proof.
  revert l2; induction l1 as [|e1 l1 IH]; intros l2 H1 H2; [congruence |].
  destruct l2 as [|e2 l2]; [congruence |].
  destruct l1 as [|e1' l1], l2 as [|e2' l2];
    rewrite ?encode_items_cons, ?append_assoc; intros H;
    apply encode_email_prefix_free in H; destruct H as [-> H].
  - reflexivity.
  - discriminate H.
  - discriminate H.
  - do 2 apply append_inv_head in H. f_equal.
    apply IH; [discriminate | discriminate | exact H].
Qed.

(** X17: the JSON text written for two lists of records is the same only
    when the lists are the same: the number of records, their order and
    every field, a null [delivery_time] included, can be read back from the
    output. *)
Theorem json_dumps_injective (emails1 emails2 : list Email.t) :
  json_dumps emails1 = json_dumps emails2 -> emails1 = emails2.
Proof.
  destruct emails1 as [|e1 l1], emails2 as [|e2 l2]; cbn [json_dumps].
  - reflexivity.
  - intros H. discriminate H.
  - intros H. discriminate H.
  - intros H. do 2 apply append_inv_head in H.
    apply encode_items_injective in H; [exact H | discriminate ..].
Qed.

Lemma json_dumps_injective_witness :
  exported folderA (subject_criteria "MSG1") = [extract_email_fields msg1]
  /\
  json_dumps [email_at None; email_at (Some "2024-06-01T00:00:00")]
  <> json_dumps [email_at (Some "2024-06-01T00:00:00"); email_at None].
Proof.
  split.
  - apply (json_dumps_injective (exported folderA (subject_criteria "MSG1"))
             [extract_email_fields msg1]).
    reflexivity.
  - intros H.
    apply (json_dumps_injective
             [email_at None; email_at (Some "2024-06-01T00:00:00")]
             [email_at (Some "2024-06-01T00:00:00"); email_at None]) in H.
    discriminate H.
Defined.

(* ------------------------------------------------------------------ *)
(** * Moving the date bounds *)

(** X18: widening the date window never loses a match: a record that
    matches criteria with the bounds [a] and [b] matches the criteria that
    differ only by an earlier or equal [date_from] and a later or equal
    [date_to]. *)
Theorem wider_window_keeps_matches (narrow wide : Criteria.t)
  (a a' b b' : datetime) (email : Email.t) :
  Criteria.date_from narrow = Some a ->
  Criteria.date_to narrow = Some b ->
  Criteria.date_from wide = Some a' ->
  Criteria.date_to wide = Some b' ->
  dt_gtb a' a = false ->
  dt_ltb b' b = false ->
  Criteria.from_address wide = Criteria.from_address narrow ->
  Criteria.subject wide = Criteria.subject narrow ->
  Criteria.body wide = Criteria.body narrow ->
  matches narrow email = true ->
  matches wide email = true.
Proof.
  intros Ha Hb Ha' Hb' Hfrom Hto Hf Hs Hbo.
  unfold matches, email_matches_criteria, date_range_check.
  rewrite Ha, Hb, Ha', Hb', Hf, Hs, Hbo. cbn [is_set orb].
  destruct (negb (truthy (Email.delivery_time email))); [discriminate |].
  destruct (Email.delivery_time email) as [iso|]; [| discriminate].
  destruct (fromisoformat iso) as [t|]; [| discriminate].
  cbn [before after].
  rewrite dt_gtb_key in Hfrom. rewrite dt_ltb_key in Hto.
  rewrite !dt_ltb_key, !dt_gtb_key.
  apply Z.ltb_ge in Hfrom, Hto.
  destruct (Z.ltb_spec (dt_key t) (dt_key a)); [discriminate |].
  destruct (Z.ltb_spec (dt_key b) (dt_key t)); [discriminate |].
  destruct (Z.ltb_spec (dt_key t) (dt_key a')); [lia |].
  destruct (Z.ltb_spec (dt_key b') (dt_key t)); [lia |].
  auto.
Qed.

Lemma wider_window_keeps_matches_witness :
  matches (date_criteria (Some jun_1) (Some jun_1_noon))
          (email_at (Some "2024-06-01T00:00:00")) = true /\
  matches (date_criteria (Some jan_1) (Some jun_1_noon))
          (email_at (Some "2024-06-01T00:00:00")) = true.
Proof.
  split; [reflexivity |].
  apply (wider_window_keeps_matches
           (date_criteria (Some jun_1) (Some jun_1_noon))
           (date_criteria (Some jan_1) (Some jun_1_noon))
           jun_1 jan_1 jun_1_noon jun_1_noon); reflexivity.
Defined.
